(** * Decision and safety-arbitration core of the THINK module

    A shallow embedding of [THINK_module/think_orchestrator.py],
    [THINK_module/memory.py] and [common/schemas.py]: the rule engine
    ([DecisionGraph]), the policy validator ([SafetyChecker]), the cooldown
    gate ([ProactivityBudget]), the memory collaborator ([ChromaStore]) and
    the pipeline that composes them ([ThinkOrchestrator]).

    Python values that the code inspects dynamically ([Dict[str, Any]]
    payloads) are embedded as a JSON-like tree; logging, exceptions and the
    mutable throttle are explicit. *)

From Stdlib Require Import QArith Ascii.
From stdpp Require Import gmap strings list fin_maps sorting.

Open Scope string_scope.
Open Scope list_scope.

#[local] Set Warnings "-register-all".

(** ** Python values *)

Module Py.

(** A Python [float]: the rational it denotes when finite, or one of the
    three special values. Comparison of [int] with [float] in Python is
    exact, so embedding finite floats in [Q] loses nothing for [<=] and
    [==]. *)
Inductive pyfloat :=
| Fin (q : Q)
| PosInf
| NegInf
| NaN.

(** The values a [Dict[str, Any]] decoded from JSON can hold. A [dict] keeps
    insertion order (iteration over [.items()] follows it); its keys are
    strings. A [str] is held by the bytes of its UTF-8 encoding: equality,
    concatenation and the substring test give the same on the bytes as on
    the characters. *)
Inductive pyval :=
| PNone
| PBool (b : bool)
| PInt (z : Z)
| PFloat (f : pyfloat)
| PStr (s : string)
| PList (l : list pyval)
| PDict (d : list (string * pyval)).

Abbreviation dict := (list (string * pyval)).

(** [d.get(k)]: the value stored under [k]. *)
Fixpoint dict_get (k : string) (d : dict) : option pyval :=
  match d with
  | [] => None
  | (k', v) :: d' => if String.eqb k k' then Some v else dict_get k d'
  end.

(** [needle in hay] on two [str]: [needle] occurs as a contiguous run. *)
Fixpoint str_contains (needle hay : string) : bool :=
  String.prefix needle hay ||
  match hay with
  | EmptyString => false
  | String _ hay' => str_contains needle hay'
  end.

(** The numeric reading of a value: [isinstance(v, (int, float))] holds
    exactly when this is [Some _]. [bool] is a subclass of [int], with
    [False == 0] and [True == 1]. *)
Definition as_num (v : pyval) : option pyfloat :=
  match v with
  | PBool b => Some (Fin (if b then 1 else 0))
  | PInt z => Some (Fin (inject_Z z))
  | PFloat f => Some f
  | _ => None
  end.

Definition is_number (v : pyval) : bool :=
  match as_num v with Some _ => true | None => false end.

Definition is_str (v : pyval) : bool :=
  match v with PStr _ => true | _ => false end.

(** [x <= y] on numbers; every comparison with NaN is false. *)
Definition num_le (x y : pyfloat) : bool :=
  match x, y with
  | NaN, _ | _, NaN => false
  | NegInf, _ => true
  | _, PosInf => true
  | Fin a, Fin b => Qle_bool a b
  | _, _ => false
  end.

(** [x == y] on numbers. *)
Definition num_eq (x y : pyfloat) : bool :=
  match x, y with
  | Fin a, Fin b => Qeq_bool a b
  | PosInf, PosInf => true
  | NegInf, NegInf => true
  | _, _ => false
  end.

(** [a == b]. Numbers compare by value across [bool], [int] and [float];
    lists element-wise; dicts as mappings, whatever the insertion order.
    Two NaN are different objects and compare unequal. *)
Fixpoint py_eq (a b : pyval) {struct a} : bool :=
  match a, b with
  | PNone, PNone => true
  | PStr s, PStr t => String.eqb s t
  | PList l, PList m =>
      (fix all2 (l m : list pyval) {struct l} : bool :=
         match l, m with
         | [], [] => true
         | x :: l', y :: m' => py_eq x y && all2 l' m'
         | _, _ => false
         end) l m
  | PDict d, PDict e =>
      Nat.eqb (length d) (length e) &&
      (fix sub (d : dict) {struct d} : bool :=
         match d with
         | [] => true
         | (k, v) :: d' =>
             match dict_get k e with
             | Some w => py_eq v w
             | None => false
             end && sub d'
         end) d
  | _, _ =>
      match as_num a, as_num b with
      | Some x, Some y => num_eq x y
      | _, _ => false
      end
  end.

(** The UTF-8 encoding of a code point. *)
Definition byte (n : N) : Ascii.ascii := Ascii.ascii_of_N n.

Definition utf8 (cp : N) : string :=
  if (cp <? 128)%N then String (byte cp) EmptyString
  else if (cp <? 2048)%N then
    String (byte (192 + cp / 64)) (String (byte (128 + cp mod 64)) EmptyString)
  else if (cp <? 65536)%N then
    String (byte (224 + cp / 4096))
      (String (byte (128 + (cp / 64) mod 64))
         (String (byte (128 + cp mod 64)) EmptyString))
  else
    String (byte (240 + cp / 262144))
      (String (byte (128 + (cp / 4096) mod 64))
         (String (byte (128 + (cp / 64) mod 64))
            (String (byte (128 + cp mod 64)) EmptyString))).

(** The characters that [\d] matches in a [str]: the decimal digits of
    Unicode (category Nd), not only those of ASCII. They come in runs of
    ten, zero to nine; the list holds the code point of the zero of each
    run, as of Unicode 14.0, the version that CPython 3.11 carries. *)
Definition decimal_zeros : list N :=
  [48; 1632; 1776; 1984; 2406; 2534; 2662; 2790; 2918; 3046; 3174; 3302; 3430;
   3558; 3664; 3792; 3872; 4160; 4240; 6112; 6160; 6470; 6608; 6784; 6800; 6992;
   7088; 7232; 7248; 42528; 43216; 43264; 43472; 43504; 43600; 44016; 65296;
   66720; 68912; 69734; 69872; 69942; 70096; 70384; 70736; 70864; 71248; 71360;
   71472; 71904; 72016; 72784; 73040; 73120; 92768; 92864; 93008; 120782;
   120792; 120802; 120812; 120822; 123200; 123632; 125264; 130032]%N.

Definition decimal_digits : list string :=
  flat_map (fun zero => (fun i => utf8 (zero + i)) <$> [0; 1; 2; 3; 4; 5; 6; 7; 8; 9]%N)
    decimal_zeros.

(** [c] is one character, and [\d] matches it. *)
Definition is_digit (c : string) : bool := bool_decide (c ∈ decimal_digits).

(** What follows [p] in [s], when [s] starts with [p]. *)
Fixpoint strip_prefix (p s : string) : option string :=
  match p, s with
  | EmptyString, _ => Some s
  | String a p', String b s' => if Ascii.eqb a b then strip_prefix p' s' else None
  | String _ _, EmptyString => None
  end.

(** What follows the first of [ps] that [s] starts with. *)
Fixpoint skip_any (ps : list string) (s : string) : option string :=
  match ps with
  | [] => None
  | p :: ps' =>
      match strip_prefix p s with
      | Some rest => Some rest
      | None => skip_any ps' s
      end
  end.

(** [\d] at the head of [s]: what follows the digit. *)
Definition skip_digit (s : string) : option string := skip_any decimal_digits s.

Definition newline : string := String (Ascii.ascii_of_nat 10) EmptyString.

(** [\d{2}:\d{2}] at the head of [s]: what follows the match. *)
Definition skip_HH_MM (s : string) : option string :=
  after_first ← skip_digit s;
  after_second ← skip_digit after_first;
  after_colon ← strip_prefix ":" after_second;
  after_third ← skip_digit after_colon;
  skip_digit after_third.

(** The anchored pattern [^\d{2}:\d{2}$] under [re.match]: two digits, a
    colon, two digits; [$] matches at the end of the string and also just
    before a newline that ends the string. *)
Definition re_match_HH_MM (s : string) : bool :=
  match skip_HH_MM s with
  | Some rest => String.eqb rest EmptyString || String.eqb rest newline
  | None => false
  end.

(** [re.match(r"^\d{2}:\d{2}$", str(v))]. Only a [str] can match: [str()]
    of [None] and of a [bool] starts with a letter, of an [int] or a
    [float] has no colon, of a [list] or a [dict] starts with a bracket. *)
Definition str_matches_HH_MM (v : pyval) : bool :=
  match v with
  | PStr s => re_match_HH_MM s
  | _ => false
  end.

End Py.

(** ** Logging and exceptions *)

Module Eff.

Inductive level := DEBUG | INFO | WARNING | ERROR.

(** A record handed to the [logging] module: its level and the message
    template of the call ([logger.exception] logs at level [ERROR]). *)
Record log_record := LogRecord { levelno : level; msg : string }.

Inductive exn :=
| TypeError
| KeyError
| IndexError
| AttributeError
| ValueError
| OverflowError
| ValidationError
| OutputParserException
| ExternalError (what : string).

Inductive outcome (A : Type) :=
| Return (a : A)
| Raise (e : exn).
Arguments Return {A} a.
Arguments Raise {A} e.

(** A computation: the records it logged, in order, and how it ended. *)
Definition M (A : Type) : Type := (list log_record * outcome A)%type.

Definition logged {A} (m : M A) : list log_record := fst m.
Definition result {A} (m : M A) : outcome A := snd m.

Definition raise {A} (e : exn) : M A := ([], Raise e).

Definition log (lv : level) (template : string) : M unit :=
  ([LogRecord lv template], Return tt).

#[export] Instance M_ret : MRet M := fun A a => ([], Return a).

#[export] Instance M_bind : MBind M := fun A B k m =>
  match m with
  | (l, Return a) => let '(l', r) := k a in (l ++ l', r)
  | (l, Raise e) => (l, Raise e)
  end.

(** [try: m  except Exception as e: h e]. *)
Definition try_except {A} (m : M A) (h : exn → M A) : M A :=
  match m with
  | (l, Return a) => (l, Return a)
  | (l, Raise e) => let '(l', r) := h e in (l ++ l', r)
  end.

End Eff.

Import Py Eff.

(** ** Operators that can raise *)

(** [item in container]. Membership in a [list] compares with [==]; in a
    [dict] it looks among the keys and needs a hashable item; in a [str] it
    is the substring test and needs a [str]; anything else is not iterable. *)
Definition py_in (item container : pyval) : M bool :=
  match container with
  | PList l => mret (existsb (py_eq item) l)
  | PDict d =>
      match item with
      | PStr k => mret (bool_decide (is_Some (dict_get k d)))
      | PList _ | PDict _ => raise TypeError
      | _ => mret false
      end
  | PStr s =>
      match item with
      | PStr t => mret (str_contains t s)
      | _ => raise TypeError
      end
  | _ => raise TypeError
  end.

(** [container[key]] with a [str] key: defined on a [dict] only. *)
Definition py_getitem (container : pyval) (key : string) : M pyval :=
  match container with
  | PDict d =>
      match dict_get key d with
      | Some v => mret v
      | None => raise KeyError
      end
  | _ => raise TypeError
  end.

(** [x <= y] where [x] is already known to be a number: ordering a number
    against [None], a [str], a [list] or a [dict] raises [TypeError]. *)
Definition py_le (x y : pyval) : M bool :=
  match as_num x, as_num y with
  | Some a, Some b => mret (num_le a b)
  | _, _ => raise TypeError
  end.

(** ** Schemas ([common/schemas.py]) *)

Module DeviceState.
Record t := mk {
  id : string;
  name : option string;
  on : bool;
  params : dict;
  capabilities : option dict;
}.
End DeviceState.

Module ActionCommand.
Record t := mk {
  device_id : string;
  command : string;
  params : dict;
}.
End ActionCommand.

Module SuggestionSchema.
Record t := mk {
  should_suggest : bool;
  suggestion_text : option string;
  reason : option string;
  action : option ActionCommand.t;
  confidence : option Q;
}.

(** Keyword arguments for the constructor: each field is either absent
    from the mapping or present with a value of the field's type. *)
Record kwargs := mk_kwargs {
  kw_should_suggest : option bool;
  kw_suggestion_text : option (option string);
  kw_reason : option (option string);
  kw_action : option (option ActionCommand.t);
  kw_confidence : option (option Q);
}.

(** [s.model_dump()]: every field is present. *)
Definition model_dump (s : t) : kwargs :=
  mk_kwargs (Some (should_suggest s)) (Some (suggestion_text s))
            (Some (reason s)) (Some (action s)) (Some (confidence s)).

(** [Field(default=0.5, ge=0.0, le=1.0)] on a value that was supplied. *)
Definition confidence_valid (c : option Q) : bool :=
  match c with
  | None => true
  | Some q => Qle_bool 0 q && Qle_bool q 1
  end.

(** The constructor called on keyword arguments (on an unpacked
    mapping): [should_suggest] is required, the other
    fields fall back to their defaults ([None], [None], [None], [0.5]);
    a supplied confidence outside [[0, 1]] is a [ValidationError]. *)
Definition init (kw : kwargs) : outcome t :=
  match kw_should_suggest kw with
  | None => Raise ValidationError
  | Some b =>
      if confidence_valid (default (Some 0.5%Q) (kw_confidence kw))
      then Return (mk b (default None (kw_suggestion_text kw))
                        (default None (kw_reason kw))
                        (default None (kw_action kw))
                        (default (Some 0.5%Q) (kw_confidence kw)))
      else Raise ValidationError
  end.
End SuggestionSchema.

Inductive ActivityStatus := idle | walking | post_workout.
Inductive StressLevel := low | high.
Inductive AirQuality := good | moderate | poor.
Inductive Occupancy := occupied | vacant.

Module BiometricContext.
Record t := mk {
  heart_rate : option Q;
  activity_status : option ActivityStatus;
  stress_level : option StressLevel;
  calories_today : option Q;
  confidence : option Q;
}.
End BiometricContext.

Module LocationContext.
Record t := mk {
  place : option string;
  travel_eta_min : option Z;
  confidence : option Q;
}.
End LocationContext.

Module ScheduleContext.
Record t := mk {
  next_meeting_time : option Z;
  free_now : option bool;
}.
End ScheduleContext.

Module EnvironmentContext.
Record t := mk {
  room_temp : option Q;
  air_quality : option AirQuality;
  occupancy : option Occupancy;
  occupancy_confidence : option Q;
}.
End EnvironmentContext.

(** Instants ([datetime]) are counted in microseconds, the resolution of
    [datetime] and [timedelta]. *)
Module ContextPacket.
Record t := mk {
  timestamp : Z;
  biometric : option BiometricContext.t;
  location : option LocationContext.t;
  schedule : option ScheduleContext.t;
  environment : option EnvironmentContext.t;
  devices : list DeviceState.t;
  raw : dict;
}.
End ContextPacket.

(** ** Safety checks and device capability validation *)

Module SafetyChecker.

(** Devices that are never to be toggled. The source holds them in a set;
    the loop over it returns at the first hit with the same effect whatever
    the order. *)
Definition SAFE_DEVICE_BLACKLIST : list string :=
  ["router"; "refrigerator"; "security_camera"].

(** [{d.id: d for d in devices}]: a later device replaces an earlier one
    with the same id. *)
Definition dev_map (devices : list DeviceState.t) : gmap string DeviceState.t :=
  foldl (fun m d => <[DeviceState.id d := d]> m) ∅ devices.

(** [caps.get(key, default)]. *)
Definition get_default (caps : dict) (key : string) (default : pyval) : pyval :=
  match dict_get key caps with
  | Some v => v
  | None => default
  end.

(** One turn of the loop over [action.params.items()]: [None] when the body
    runs to its end (or hits [continue]) and the loop goes on, [Some b] when
    it executes [return b]. *)
Definition check_param (available_params : pyval) (device_id : string)
    (param_name : string) (param_value : pyval) : M (option bool) :=
  declared ← py_in (PStr param_name) available_params;
  if negb declared then
    log DEBUG "SafetyCheck: Param '%s' not in capability spec for %s. Skipping bounds check.";;
    mret None
  else
    param_spec ← py_getitem available_params param_name;
    match param_spec with
    | PList [] =>
        log DEBUG "SafetyCheck: Param '%s' has empty spec list.";;
        mret None
    | PList (first :: rest) =>
        if is_number first then
          match rest with
          | [second] =>
              let min_v := first in
              let max_v := second in
              if negb (is_number param_value) then
                log WARNING "SafetyCheck: Param '%s' value '%s' is not numeric for device %s.";;
                mret (Some false)
              else
                lower ← py_le min_v param_value;
                within ← (if lower : bool then py_le param_value max_v else mret false);
                if negb within then
                  log WARNING "SafetyCheck: Param %s=%s outside range [%s, %s] for device %s";;
                  mret (Some false)
                else mret None
          | _ =>
              log WARNING "SafetyCheck: Numeric param spec '%s' has invalid format (not [min, max]).";;
              mret None
          end
        else if is_str first then
          member ← py_in param_value param_spec;
          if negb member then
            log WARNING "SafetyCheck: Param %s=%s not in allowed list %s for device %s";;
            mret (Some false)
          else mret None
        else mret None
    | PStr token =>
        if String.eqb token "HH:MM" then
          if negb (str_matches_HH_MM param_value) then
            log WARNING "SafetyCheck: Param %s=%s does not match format '%s' for device %s";;
            mret (Some false)
          else mret None
        else mret None
    | _ =>
        log DEBUG "SafetyCheck: Param '%s' has unhandled spec format '%s' for %s. Skipping.";;
        mret None
    end.

(** The loop over the supplied parameters, followed by the final
    [return True]. *)
Fixpoint check_params (available_params : pyval) (device_id : string)
    (items : dict) : M bool :=
  match items with
  | [] => mret true
  | (param_name, param_value) :: items' =>
      r ← check_param available_params device_id param_name param_value;
      match r return M bool with
      | Some b => mret b
      | None => check_params available_params device_id items'
      end
  end.

Definition is_action_safe (action : ActionCommand.t)
    (devices : list DeviceState.t) : M bool :=
  let device_id := ActionCommand.device_id action in
  match dev_map devices !! device_id with
  | None =>
      log WARNING "SafetyCheck: Unknown device %s";;
      mret false
  | Some dev =>
      if existsb (fun bad => str_contains bad device_id) SAFE_DEVICE_BLACKLIST then
        log WARNING "SafetyCheck: Action targets blacklisted device %s";;
        mret false
      else
        match DeviceState.capabilities dev with
        | None | Some [] =>
            log WARNING "SafetyCheck: Device %s has no capabilities defined.";;
            mret false
        | Some caps =>
            let available_functions := get_default caps "functions" (PList []) in
            supported ← py_in (PStr (ActionCommand.command action)) available_functions;
            if negb supported then
              log WARNING "SafetyCheck: Device %s cannot perform command '%s'. Available: %s";;
              mret false
            else
              let available_params := get_default caps "parameters" (PDict []) in
              check_params available_params device_id (ActionCommand.params action)
        end
  end.

End SafetyChecker.

(** ** Deterministic candidate actions *)

Module Candidate.
Record t := mk {
  action_type : string;
  target_devices : list string;
  reason : string;
}.
End Candidate.

Module DecisionGraph.

(** [[d.id for d in devices if keep d]]. *)
Definition ids_where (keep : DeviceState.t → bool)
    (devices : list DeviceState.t) : list string :=
  DeviceState.id <$> filter (fun d => keep d = true) devices.

Definition candidates_from_context (ctx : ContextPacket.t) : list Candidate.t :=
  let devices := ContextPacket.devices ctx in
  let cands : list Candidate.t := [] in
  let cands :=
    match ContextPacket.environment ctx with
    | Some environment =>
        match EnvironmentContext.occupancy environment with
        | Some vacant =>
            let on_devices :=
              ids_where (fun d => DeviceState.on d
                                  && str_contains "light" (DeviceState.id d)) devices in
            match on_devices with
            | [] => cands
            | _ => cands ++ [Candidate.mk "turn_off_room_lights" on_devices
                               "room appears empty and lights are on"]
            end
        | _ => cands
        end
    | None => cands
    end in
  let cands :=
    match ContextPacket.biometric ctx, ContextPacket.location ctx with
    | Some biometric, Some location =>
        match BiometricContext.activity_status biometric,
              LocationContext.place location with
        | Some post_workout, Some place =>
            if String.eqb place "home" then
              let water_devices :=
                ids_where (fun d => str_contains "geyser" (DeviceState.id d)
                                    || str_contains "water_heater" (DeviceState.id d))
                          devices in
              match water_devices with
              | [] => cands
              | _ => cands ++ [Candidate.mk "prepare_bath" water_devices
                                 "user finished workout and is at home"]
              end
            else cands
        | _, _ => cands
        end
    | _, _ => cands
    end in
  let cands :=
    match ContextPacket.biometric ctx with
    | Some biometric =>
        match BiometricContext.stress_level biometric with
        | Some high =>
            let relax_targets :=
              ids_where (fun d => str_contains "light" (DeviceState.id d)
                                  || str_contains "speaker" (DeviceState.id d))
                        devices in
            match relax_targets with
            | [] => cands
            | _ => cands ++ [Candidate.mk "relaxation_routine" relax_targets
                               "user shows high stress"]
            end
        | _ => cands
        end
    | None => cands
    end in
  cands.

End DecisionGraph.

(** ** Proactivity budget *)

Module ProactivityBudget.

(** [cooldown_threshold] is a [timedelta], [last_suggestion_time] an
    [Optional[datetime]]; both in microseconds. *)
Record t := mk {
  cooldown_threshold : Z;
  last_suggestion_time : option Z;
}.

Definition timedelta_minutes (minutes : Z) : Z := (minutes * 60 * 1000000)%Z.

(** A [timedelta] holds at most 999999999 days, either way; the days of
    [timedelta(minutes=m)] are [m // 1440]. *)
Definition timedelta_fits (minutes : Z) : bool :=
  (-999999999 <=? minutes / 1440)%Z && (minutes / 1440 <=? 999999999)%Z.

(** [__init__(cooldown_minutes)]: the constructor of the [timedelta]
    raises [OverflowError] beyond its range, before anything is logged. *)
Definition init (cooldown_minutes : Z) : M t :=
  if timedelta_fits cooldown_minutes then
    log INFO "ProactivityBudget initialized with a {cooldown_minutes}-minute cooldown.";;
    mret (mk (timedelta_minutes cooldown_minutes) None)
  else raise OverflowError.

(** [allow()], the clock reading [datetime.utcnow()] being [now]. Returns
    the answer and the budget as the call leaves it. *)
Definition allow (now : Z) (self : t) : M (bool * t) :=
  match last_suggestion_time self with
  | None =>
      log INFO "Proactivity budget ALLOWED. (First suggestion)";;
      mret (true, mk (cooldown_threshold self) (Some now))
  | Some last =>
      let time_elapsed := (now - last)%Z in
      if (cooldown_threshold self <=? time_elapsed)%Z then
        log INFO "Proactivity budget ALLOWED. (Time elapsed: {time_elapsed} >= {self.cooldown_threshold})";;
        mret (true, mk (cooldown_threshold self) (Some now))
      else
        log WARNING "Proactivity budget DENIED. (Time elapsed: {time_elapsed} < {self.cooldown_threshold}). Please wait {time_remaining.total_seconds():.1f} more seconds.";;
        mret (false, self)
  end.

End ProactivityBudget.

(** ** Memory collaborator ([THINK_module/memory.py]) *)

Module ChromaStore.

(** What [collection.query] answers: the nearest documents and their
    distances, one inner list per query embedding. *)
Record QueryResult (distance : Type) := mkQueryResult {
  documents : list (list string);
  distances : list (list distance);
}.
Arguments documents {distance} _.
Arguments distances {distance} _.

(** The ChromaDB collection and the embedding service, as the store uses
    them. Every call into the collection may raise. Distances are IEEE
    doubles and stay abstract: [similarity_ge d t] stands for
    [1 - d >= t]. [ollama_post text] is what the request to Ollama gives:
    the decoded JSON body, or the exception of [requests.post],
    [raise_for_status] or [resp.json]. [naive_component text] is
    [float((hash(text) % 1000) / 1000.0)], the hash of a [str] being salted
    anew in every process. [add] gives back the collection as the call left
    it, also when it raised. *)
Class Collection (C : Type) := {
  distance : Type;
  ollama_post : string → outcome pyval;
  naive_component : string → pyfloat;
  similarity_ge : distance → Q → bool;
  count : C → outcome nat;
  query : C → pyval → nat → outcome (QueryResult distance);
  add : C → string → dict → pyval → string → outcome unit * C;
}.

(** [json.dumps(v, default=str)] and [str(v)], left to the runtime. *)
Class Serializer := {
  json_dumps : pyval → outcome string;
  py_str : pyval → string;
}.

(** The values of the process that a call draws afresh. *)
Record Fresh := mkFresh {
  uuid4 : string;
  now_isoformat : string;
}.

Definition THRESHOLD : Q := 0.85.

(** Run an external call inside a computation. *)
Definition call {A} (o : outcome A) : M A := ([], o).

(** [xs[0]]. *)
Definition first_item {A} (xs : list A) : M A :=
  match xs with
  | x :: _ => mret x
  | [] => raise IndexError
  end.

(** [d[k] = v]. *)
Fixpoint dict_set (k : string) (v : pyval) (d : dict) : dict :=
  match d with
  | [] => [(k, v)]
  | (k', v') :: d' =>
      if String.eqb k k' then (k, v) :: d' else (k', v') :: dict_set k v d'
  end.

Section Store.
Context {C : Type} `{Collection C} `{Serializer}.

(** [get_ollama_embedding(text)]: the vector of the response, under
    ["embedding"] or else ["embeddings"]; any failure is logged and
    answered with the naive vector of 768 equal components. Formatting
    [data.keys()] for the first error message raises on a body that is not
    a mapping, before that message is logged. *)
Definition get_ollama_embedding (text : string) : M pyval :=
  try_except
    (data ← call (ollama_post text);
     single ← py_in (PStr "embedding") data;
     if single : bool then py_getitem data "embedding"
     else
       several ← py_in (PStr "embeddings") data;
       if several : bool then py_getitem data "embeddings"
       else
         match data with
         | PDict _ =>
             log ERROR "Ollama embedding response format unknown: {data.keys()}";;
             raise ValueError
         | _ => raise AttributeError
         end)
    (fun e =>
       log ERROR "Ollama embedding error: {e}";;
       log WARNING "Using naive fallback embedding!";;
       mret (PList (replicate 768 (PFloat (naive_component text))))).

Definition _is_duplicate (self : C) (text : string) (threshold : Q) : M bool :=
  n ← call (count self);
  if Nat.eqb n 0 then mret false
  else
    try_except
      (emb ← get_ollama_embedding text;
       results ← call (query self emb 1);
       match documents results, distances results with
       | docs :: _, dists :: _ =>
           existing_doc ← first_item docs;
           distance ← first_item dists;
           if similarity_ge distance threshold then
             log INFO "Skipped duplicate fact: '{text}' ~ '{existing_doc}' (sim={similarity:.3f})";;
             mret true
           else mret false
       | _, _ => mret false
       end)
      (fun e => log ERROR "Duplicate check error: {e}";; mret false).

(** The value stored for one metadata entry. *)
Definition sanitize_value (v : pyval) : pyval :=
  match v with
  | PStr _ | PInt _ | PFloat _ | PBool _ | PNone => v
  | _ =>
      match json_dumps v with
      | Return s => PStr s
      | Raise _ => PStr (py_str v)
      end
  end.

(** The loop that fills [safe_meta], starting from [{}]. *)
Definition sanitize (metadata : dict) : dict :=
  foldl (fun safe_meta kv => dict_set kv.1 (sanitize_value kv.2) safe_meta) [] metadata.

(** [add_document(text, metadata)]: how the call ends, and the collection
    as it leaves it. [safe_meta] stays [None] unless [metadata] is
    truthy, and the assignment of the timestamp into [None] raises. *)
Definition add_document (self : C) (fresh : Fresh) (text : string)
    (metadata : option dict) : M string * C :=
  match _is_duplicate self text THRESHOLD with
  | (l, Raise e) => ((l, Raise e), self)
  | (l, Return true) => ((l, Return "DUPLICATE_SKIPPED"), self)
  | (l, Return false) =>
      let doc_id := uuid4 fresh in
      let safe_meta : option dict :=
        match metadata with
        | None | Some [] => None
        | Some items => Some (sanitize items)
        end in
      match safe_meta with
      | None => ((l, Raise TypeError), self)
      | Some safe_meta =>
          let safe_meta := dict_set "timestamp" (PStr (now_isoformat fresh)) safe_meta in
          match get_ollama_embedding text with
          | (l', Return embedding) =>
              match add self text safe_meta embedding doc_id with
              | (Return _, self') =>
                  ((l ++ l' ++ [LogRecord INFO "Stored doc {doc_id} in '{self.collection.name}'"],
                    Return doc_id), self')
              | (Raise e, self') =>
                  ((l ++ l' ++ [LogRecord ERROR "Chroma add_document error: {e}"], Raise e),
                   self')
              end
          | (l', Raise e) =>
              ((l ++ l' ++ [LogRecord ERROR "Chroma add_document error: {e}"], Raise e), self)
          end
      end
  end.

(** ["\n".join(f"- {doc}" for doc in docs)]. *)
Fixpoint bulleted (docs : list string) : string :=
  match docs with
  | [] => EmptyString
  | [doc] => "- " +:+ doc
  | doc :: docs' => "- " +:+ doc +:+ newline +:+ bulleted docs'
  end.

Definition get_relevant_info (self : C) (q : string) (n_results : nat) : M string :=
  n ← call (count self);
  if Nat.eqb n 0 then mret "No information in memory."
  else
    try_except
      (query_emb ← get_ollama_embedding q;
       results ← call (query self query_emb n_results);
       match documents results with
       | docs :: _ => mret (bulleted docs)
       | [] => mret "No relevant information found in memory."
       end)
      (fun e => log ERROR "Chroma query error: {e}";; mret "Error querying memory.").

End Store.

End ChromaStore.

(** ** The LLM client (pass 1 and pass 2) *)

Module LangchainLLMClient.

(** The two LCEL chains are external: what [ainvoke] answers for given
    inputs, or the exception it raises. The pass-2 chain ends in the
    pydantic parser, so a parse or schema failure surfaces as
    [OutputParserException] and a failed call as any other exception. *)
Record t := mk {
  pass1_chain : ContextPacket.t → list Candidate.t → string → outcome string;
  pass2_chain : string → ContextPacket.t → outcome SuggestionSchema.t;
}.

Definition pass1_reasoning (self : t) (ctx : ContextPacket.t)
    (candidates : list Candidate.t) (memory_texts : string) : M string :=
  ChromaStore.call (pass1_chain self ctx candidates memory_texts).

(** The mapping returned when pass 2 raised. *)
Definition parse_failed : SuggestionSchema.kwargs :=
  SuggestionSchema.mk_kwargs (Some false) None (Some (Some "llm_parse_failed")) None None.

Definition pass2_structured (self : t) (ctx : ContextPacket.t)
    (pass1_summary : string) : M SuggestionSchema.kwargs :=
  try_except
    (parsed ← ChromaStore.call (pass2_chain self pass1_summary ctx);
     mret (SuggestionSchema.model_dump parsed))
    (fun e =>
       log ERROR "Failed to parse LLM Pass 2 output: %s.";;
       mret parse_failed).

End LangchainLLMClient.

(** ** Think orchestrator *)

Module ThinkOrchestrator.

Section Orchestrator.
Context {C : Type} `{ChromaStore.Collection C} `{ChromaStore.Serializer}.

Record t := mk {
  llm_client : LangchainLLMClient.t;
  memory : option C;
  device_capabilities : gmap string dict;
  proactivity_budget : ProactivityBudget.t;
}.

(** Step 0: attach to every device its entry of the capability map, or
    the empty mapping when it has none. *)
Fixpoint enrich_devices (caps : gmap string dict)
    (devices : list DeviceState.t) : M (list DeviceState.t) :=
  match devices with
  | [] => mret []
  | dev_state :: rest =>
      dev_state' ←
        match caps !! DeviceState.id dev_state with
        | Some c =>
            mret (DeviceState.mk (DeviceState.id dev_state) (DeviceState.name dev_state)
                    (DeviceState.on dev_state) (DeviceState.params dev_state) (Some c))
        | None =>
            log WARNING "Device %s from context has no capabilities defined in devices.json";;
            mret (DeviceState.mk (DeviceState.id dev_state) (DeviceState.name dev_state)
                    (DeviceState.on dev_state) (DeviceState.params dev_state) (Some []))
        end;
      rest' ← enrich_devices caps rest;
      mret (dev_state' :: rest')
  end.

Definition _enrich_context_with_capabilities (self : t)
    (ctx : ContextPacket.t) : M ContextPacket.t :=
  devices ← enrich_devices (device_capabilities self) (ContextPacket.devices ctx);
  mret (ContextPacket.mk (ContextPacket.timestamp ctx) (ContextPacket.biometric ctx)
          (ContextPacket.location ctx) (ContextPacket.schedule ctx)
          (ContextPacket.environment ctx) devices (ContextPacket.raw ctx)).

Definition activity_str (a : ActivityStatus) : string :=
  match a with idle => "idle" | walking => "walking" | post_workout => "post_workout" end.
Definition stress_str (s : StressLevel) : string :=
  match s with low => "low" | high => "high" end.
Definition occupancy_str (o : Occupancy) : string :=
  match o with occupied => "occupied" | vacant => "vacant" end.

(** [", ".join(parts)]. *)
Fixpoint join_comma (parts : list string) : string :=
  match parts with
  | [] => EmptyString
  | [p] => p
  | p :: parts' => p +:+ ", " +:+ join_comma parts'
  end.

Definition _get_memory_query (ctx : ContextPacket.t) : string :=
  let activity := ContextPacket.biometric ctx ≫= BiometricContext.activity_status in
  let stress := ContextPacket.biometric ctx ≫= BiometricContext.stress_level in
  let occupancy := ContextPacket.environment ctx ≫= EnvironmentContext.occupancy in
  let place := ContextPacket.location ctx ≫= LocationContext.place in
  let mem_query_parts :=
    (match activity with Some a => ["user activity " +:+ activity_str a] | None => [] end)
    ++ (match stress with Some s => ["user stress " +:+ stress_str s] | None => [] end)
    ++ (match occupancy with Some o => ["room " +:+ occupancy_str o] | None => [] end)
    ++ (match place with
        | Some p => if String.eqb p EmptyString then [] else ["user at " +:+ p]
        | None => []
        end) in
  match mem_query_parts with
  | [] => "general user preferences"
  | _ => join_comma mem_query_parts
  end.

(** Step 4: pass 2 and the construction of the suggestion, with the two
    handlers of the orchestrator. *)
Definition pass2_step (self : t) (ctx : ContextPacket.t)
    (pass1_output : string) : M SuggestionSchema.t :=
  try_except
    (pass2_out ← LangchainLLMClient.pass2_structured (llm_client self) ctx pass1_output;
     ChromaStore.call (SuggestionSchema.init pass2_out))
    (fun e =>
       match e with
       | ValidationError =>
           log ERROR "Suggestion validation failed: %s";;
           mret (SuggestionSchema.mk false None (Some "validation_failed") None (Some 0%Q))
       | _ =>
           log ERROR "Pass2 parse/LLM failure: %s";;
           mret (SuggestionSchema.mk false None (Some "llm_error") None (Some 0%Q))
       end).

(** Step 5: the safety check, when the suggestion carries an action. *)
Definition safety_step (suggestion : SuggestionSchema.t)
    (devices : list DeviceState.t) : M SuggestionSchema.t :=
  match SuggestionSchema.action suggestion with
  | Some action =>
      safe ← SafetyChecker.is_action_safe action devices;
      if negb safe then
        log WARNING "Safety check FAILED for action: %s";;
        mret (SuggestionSchema.mk false
                (SuggestionSchema.suggestion_text suggestion)
                (Some "Action failed safety check.")
                (SuggestionSchema.action suggestion)
                (SuggestionSchema.confidence suggestion))
      else mret suggestion
  | None => mret suggestion
  end.

(** Step 6: the proactivity budget, consulted only for a suggestion that
    is still to be made ([and] does not evaluate its right operand
    otherwise). *)
Definition budget_step (now : Z) (suggestion : SuggestionSchema.t)
    (budget : ProactivityBudget.t) : M (SuggestionSchema.t * ProactivityBudget.t) :=
  if SuggestionSchema.should_suggest suggestion then
    r ← ProactivityBudget.allow now budget;
    if negb r.1 then
      log INFO "Proactivity budget exhausted; suppressing suggestion";;
      mret (SuggestionSchema.mk false
              (SuggestionSchema.suggestion_text suggestion)
              (Some "Proactivity budget exhausted.")
              (SuggestionSchema.action suggestion)
              (SuggestionSchema.confidence suggestion), r.2)
    else mret (suggestion, r.2)
  else mret (suggestion, budget).

(** Steps 0 to 4 of [process_context]: the enriched context and the
    suggestion as pass 2 leaves it. *)
Definition before_safety (self : t) (ctx : ContextPacket.t)
    : M (ContextPacket.t * SuggestionSchema.t) :=
  log INFO "Processing context ts=%s";;
  ctx ← _enrich_context_with_capabilities self ctx;
  let candidates := DecisionGraph.candidates_from_context ctx in
  let mem_query := _get_memory_query ctx in
  memory_texts ←
    match memory self with
    | Some store => ChromaStore.get_relevant_info store mem_query 3
    | None => raise AttributeError
    end;
  pass1_output ←
    try_except
      (out ← LangchainLLMClient.pass1_reasoning (llm_client self) ctx candidates memory_texts;
       log DEBUG "Pass1 output: %s";;
       mret out)
      (fun e => log ERROR "Pass1 LLM failure: %s";; mret "LLM pass1 error");
  suggestion ← pass2_step self ctx pass1_output;
  mret (ctx, suggestion).

(** Steps 0 to 5: everything before the budget. *)
Definition before_budget (self : t) (ctx : ContextPacket.t) : M SuggestionSchema.t :=
  r ← before_safety self ctx;
  safety_step r.2 (ContextPacket.devices r.1).

(** [process_context(ctx)] when [datetime.utcnow()] reads [now]: the
    final suggestion and the orchestrator's budget after the call. *)
Definition process_context (self : t) (now : Z) (ctx : ContextPacket.t)
    : M (SuggestionSchema.t * ProactivityBudget.t) :=
  suggestion ← before_budget self ctx;
  budget_step now suggestion (proactivity_budget self).

Definition opt_str (o : option string) : string := default "None" o.

Definition action_dump (a : ActionCommand.t) : pyval :=
  PDict [("device_id", PStr (ActionCommand.device_id a));
         ("command", PStr (ActionCommand.command a));
         ("params", PDict (ActionCommand.params a))].

(** [store_user_confirmation(suggestion, ctx, accepted)]: how the call
    ends, and the memory as it leaves it. *)
Definition store_user_confirmation (self : t) (fresh : ChromaStore.Fresh)
    (suggestion : SuggestionSchema.t) (ctx : ContextPacket.t) (accepted : bool)
    : M unit * option C :=
  match memory self with
  | None => (mret tt, None)
  | Some store =>
      let activity :=
        match ContextPacket.biometric ctx ≫= BiometricContext.activity_status with
        | Some a => activity_str a
        | None => "unknown"
        end in
      if accepted then
        match SuggestionSchema.action suggestion with
        | Some action =>
            let fact_text :=
              "User ACCEPTED this action: "
              +:+ opt_str (SuggestionSchema.suggestion_text suggestion)
              +:+ " (Action: " +:+ ActionCommand.command action +:+ " "
              +:+ ActionCommand.device_id action +:+ ")" in
            let meta :=
              [("type", PStr "accepted_action"); ("accepted", PBool true);
               ("action", action_dump action); ("context_activity", PStr activity)] in
            let '(r, store') := ChromaStore.add_document store fresh fact_text (Some meta) in
            (r ≫= λ _, mret tt, Some store')
        | None => (mret tt, Some store)
        end
      else
        let fact_text :=
          "User REJECTED this suggestion: "
          +:+ opt_str (SuggestionSchema.suggestion_text suggestion) in
        let meta :=
          [("type", PStr "rejected_action"); ("accepted", PBool false);
           ("reason", match SuggestionSchema.reason suggestion with
                      | Some r => PStr r | None => PNone end);
           ("context_activity", PStr activity)] in
        let '(r, store') := ChromaStore.add_document store fresh fact_text (Some meta) in
        (r ≫= λ _, mret tt, Some store')
  end.

End Orchestrator.

End ThinkOrchestrator.

(** ** The specification's vocabulary

    The predicates below follow the words of the specification, not the
    code; the theorems relate them to the functions above. *)

Module Policy.

(** [needle] occurs in [hay]. *)
Definition substring (needle hay : string) : Prop :=
  ∃ pre post, hay = pre +:+ needle +:+ post.

(** Two digits, a colon, two digits, and nothing else. A digit is any
    decimal digit, as for the pattern; [a], [b], [c] and [d] are one
    character each. *)
Definition two_digits_colon_two_digits (s : string) : Prop :=
  ∃ a b c d,
    is_digit a = true ∧ is_digit b = true ∧ is_digit c = true ∧ is_digit d = true ∧
    s = a +:+ b +:+ ":" +:+ c +:+ d.


(** [min <= v <= max], with [v] a number. *)
Definition within_range (min_v max_v v : pyval) : Prop :=
  ∃ a x b, as_num min_v = Some a ∧ as_num v = Some x ∧ as_num max_v = Some b ∧
           num_le a x = true ∧ num_le x b = true.

(** [v] equals one member of the enumeration. *)
Definition member_of (v : pyval) (values : list pyval) : Prop :=
  ∃ e, e ∈ values ∧ py_eq v e = true.

(** What a declared parameter spec demands of a supplied value: a numeric
    range [[min, max]] demands a number within the inclusive bounds, an
    enumeration (a list that starts with a string) demands one of its
    members, the token ["HH:MM"] demands a string of the format [hh_mm];
    any other shape demands nothing. *)
Definition meets_constraint (hh_mm : string → Prop) (spec v : pyval) : Prop :=
  match spec with
  | PList (first :: rest) =>
      if is_number first then
        match rest with
        | [second] => within_range first second v
        | _ => True
        end
      else if is_str first then member_of v (first :: rest)
      else True
  | PStr token =>
      if String.eqb token "HH:MM" then ∃ s, v = PStr s ∧ hh_mm s else True
  | _ => True
  end.

(** The five conditions under which the specification calls an action
    safe. The device of an id is the one [dev_map] holds for it. *)
Definition acceptable (hh_mm : string → Prop) (action : ActionCommand.t)
    (devices : list DeviceState.t) : Prop :=
  ∃ dev caps,
    SafetyChecker.dev_map devices !! ActionCommand.device_id action = Some dev ∧
    (∀ bad, bad ∈ SafetyChecker.SAFE_DEVICE_BLACKLIST →
            ¬ substring bad (ActionCommand.device_id action)) ∧
    DeviceState.capabilities dev = Some caps ∧ caps ≠ [] ∧
    (∃ functions, dict_get "functions" caps = Some (PList functions) ∧
                  PStr (ActionCommand.command action) ∈ functions) ∧
    (∀ parameters name v spec,
        dict_get "parameters" caps = Some (PDict parameters) →
        (name, v) ∈ ActionCommand.params action →
        dict_get name parameters = Some spec →
        meets_constraint hh_mm spec v).


(** [sorted(set(ids))]: the ids without repetition, in ascending order. *)
Definition string_le (a b : string) : Prop := String.leb a b = true.
#[export] Instance string_le_dec a b : Decision (string_le a b).
Proof. unfold string_le. apply _. Defined.

Definition sorted_set (ids : list string) : list string :=
  merge_sort string_le (remove_dups ids).

(** The ids of the devices that are on and whose id contains "light", one
    per such device, in the order of the device list. *)
Definition lit_ids (devices : list DeviceState.t) : list string :=
  DeviceState.id <$>
    filter (fun d => DeviceState.on d = true
                     ∧ str_contains "light" (DeviceState.id d) = true) devices.

(** The candidates of a given action type. *)
Definition of_type (action_type : string) (cands : list Candidate.t) : list Candidate.t :=
  filter (fun c => Candidate.action_type c = action_type) cands.

End Policy.

(** ** Fixtures

    The capability map and the devices of [demo_once], and an in-memory
    stand-in for the ChromaDB collection whose [add] can be made to fail. *)

Module Demo.

Definition geyser_caps : dict :=
  [("functions", PList [PStr "on"; PStr "off"; PStr "set_temperature"]);
   ("parameters", PDict [("temperature", PList [PInt 30; PInt 75])])].

Definition light_caps : dict :=
  [("functions", PList [PStr "on"; PStr "off"; PStr "set_brightness"; PStr "set_color_temp"]);
   ("parameters", PDict [("brightness", PList [PInt 0; PInt 100]);
                         ("color_temperature", PList [PInt 2700; PInt 6500])])].

Definition ac_caps : dict :=
  [("functions", PList [PStr "set_mode"; PStr "set_temperature"; PStr "eco_mode"; PStr "schedule"]);
   ("parameters", PDict [("mode", PList [PStr "cool"; PStr "heat"; PStr "dry"; PStr "fan"]);
                         ("temperature", PList [PInt 16; PInt 30]);
                         ("schedule_time", PStr "HH:MM")])].

Definition dummy_device_capabilities : gmap string dict :=
  <["smart_ac_1" := ac_caps]>
    (<["smart_light_1" := light_caps]>
       (<["smart_geyser_1" := geyser_caps]> ∅)).

Definition geyser (caps : option dict) : DeviceState.t :=
  DeviceState.mk "smart_geyser_1" (Some "Geyser") false [("temperature", PInt 30)] caps.
Definition living_light (caps : option dict) : DeviceState.t :=
  DeviceState.mk "smart_light_1" (Some "Living Light") true [("brightness", PInt 80)] caps.
Definition ac (caps : option dict) : DeviceState.t :=
  DeviceState.mk "smart_ac_1" (Some "AC") false [] caps.

(** The devices once the orchestrator has attached their capabilities. *)
Definition enriched_devices : list DeviceState.t :=
  [geyser (Some geyser_caps); living_light (Some light_caps); ac (Some ac_caps)].

Definition ctx : ContextPacket.t :=
  ContextPacket.mk 0
    (Some (BiometricContext.mk (Some 115%Q) (Some idle) (Some high) None (Some 1%Q)))
    (Some (LocationContext.mk (Some "office") (Some 30%Z) (Some 1%Q)))
    (Some (ScheduleContext.mk None (Some true)))
    (Some (EnvironmentContext.mk (Some 37%Q) (Some moderate) (Some vacant) (Some 1%Q)))
    [geyser (Some []); living_light (Some []); ac (Some [])]
    [].

(** A room with two lights on, listed in descending order of id. *)
Definition two_lights_ctx : ContextPacket.t :=
  ContextPacket.mk 0 None None None
    (Some (EnvironmentContext.mk None None (Some vacant) (Some 1%Q)))
    [DeviceState.mk "light_b" None true [] (Some []);
     DeviceState.mk "light_a" None true [] (Some [])]
    [].

(** A schedule request whose time is followed by a line feed. *)
Definition schedule_with_newline : ActionCommand.t :=
  ActionCommand.mk "smart_ac_1" "schedule"
    [("schedule_time", PStr ("12:34" +:+ newline))].

(** A request on a device of the blacklist. *)
Definition router : DeviceState.t :=
  DeviceState.mk "home_router_1" (Some "Router") true []
    (Some [("functions", PList [PStr "off"])]).
Definition router_off : ActionCommand.t := ActionCommand.mk "home_router_1" "off" [].

(** A device whose numeric spec has three elements. *)
Definition dimmer : DeviceState.t :=
  DeviceState.mk "dimmer_1" None true []
    (Some [("functions", PList [PStr "set_level"]);
           ("parameters", PDict [("level", PList [PInt 0; PInt 50; PInt 100])])]).

(** The stand-in collection: the documents it holds, and the exception
    its [add] raises, if any. *)
Record FakeCollection := mkFake {
  stored : list (string * dict);
  add_raises : option exn;
}.

#[global] Instance fake_collection : ChromaStore.Collection FakeCollection := {|
  ChromaStore.distance := Q;
  ChromaStore.ollama_post := fun _ => Return (PDict [("embedding", PList [PFloat (Fin 0)])]);
  ChromaStore.naive_component := fun _ => Fin 0;
  ChromaStore.similarity_ge := fun d t => Qle_bool t (1 - d);
  ChromaStore.count := fun c => Return (length (stored c));
  ChromaStore.query := fun c _ n =>
    Return (ChromaStore.mkQueryResult Q [fst <$> take n (stored c)]
                                        [(fun _ => 1%Q) <$> take n (stored c)]);
  ChromaStore.add := fun c text meta _ _ =>
    match add_raises c with
    | Some e => (Raise e, c)
    | None => (Return tt, mkFake (stored c ++ [(text, meta)]) None)
    end;
|}.

#[global] Instance fake_serializer : ChromaStore.Serializer := {|
  ChromaStore.json_dumps := fun _ => Return "{}";
  ChromaStore.py_str := fun _ => "{}";
|}.

Definition fresh : ChromaStore.Fresh := ChromaStore.mkFresh "doc-1" "2025-01-01T00:00:00".

Definition broken_store : FakeCollection :=
  mkFake [] (Some (ExternalError "chroma add failed")).

(** A suggestion of the reasoner: dim the living light to 80. *)
Definition dim_light : SuggestionSchema.t :=
  SuggestionSchema.mk true (Some "Dim the living light?") (Some "lights are on")
    (Some (ActionCommand.mk "smart_light_1" "set_brightness" [("brightness", PInt 80)]))
    (Some 0.9%Q).

(** A suggestion that asks the air conditioner for 90 degrees. *)
Definition overheat : SuggestionSchema.t :=
  SuggestionSchema.mk true (Some "Heat the room?") (Some "it is cold")
    (Some (ActionCommand.mk "smart_ac_1" "set_temperature" [("temperature", PInt 90)]))
    (Some 0.8%Q).

(** Clients whose first pass answers a summary and whose second pass
    answers [s], or raises [e]. *)
Definition answering (s : SuggestionSchema.t) : LangchainLLMClient.t :=
  LangchainLLMClient.mk (fun _ _ _ => Return "summary") (fun _ _ => Return s).
Definition failing (e : exn) : LangchainLLMClient.t :=
  LangchainLLMClient.mk (fun _ _ _ => Return "summary") (fun _ _ => Raise e).

Definition orchestrator (client : LangchainLLMClient.t)
    (budget : ProactivityBudget.t) : ThinkOrchestrator.t :=
  ThinkOrchestrator.mk client (Some (mkFake [] None)) dummy_device_capabilities budget.

Definition ten_minutes : Z := ProactivityBudget.timedelta_minutes 10.

End Demo.

(** ** The service around the orchestrator ([THINK_module/think_service.py]) *)

Module ThinkService.

(** What the endpoint answers: the JSON body sent with status 202, of
    which only the confidence varies, or an [HTTPException]. *)
Inductive Response :=
| Accepted (suggestion_confidence : option Q)
| HTTPException (status_code : Z) (detail : string).

(** [iter(v)], as the comprehension over the devices of the file needs it:
    the elements of a list, the keys of a mapping, the characters of a
    string. *)
Definition iterate (v : pyval) : M (list pyval) :=
  match v with
  | PList l => mret l
  | PDict d => mret (PStr <$> d.*1)
  | PStr s => mret ((fun c => PStr (String c EmptyString)) <$> String.list_ascii_of_string s)
  | _ => raise TypeError
  end.

(** One item of the comprehension, for a device [dev] of the file: the key
    [dev["id"]] and the two-entry mapping stored under it. A key that is
    not a string can equal no device id, so its entry is never looked up
    and is left out ([None]); a key that cannot be hashed raises. *)
Definition capability_entry (dev : pyval) : M (option (string * dict)) :=
  match dev with
  | PDict d =>
      match dict_get "id" d with
      | None => raise KeyError
      | Some key =>
          let entry :=
            [("functions", SafetyChecker.get_default d "functions" (PList []));
             ("parameters", SafetyChecker.get_default d "parameters" (PDict []))] in
          match key with
          | PStr i => mret (Some (i, entry))
          | PList _ | PDict _ => raise TypeError
          | _ => mret None
          end
      end
  | _ => raise TypeError
  end.

(** The comprehension itself: a later device replaces an earlier one with
    the same id. *)
Fixpoint collect_capabilities (devs : list pyval) (m : gmap string dict)
    : M (gmap string dict) :=
  match devs with
  | [] => mret m
  | dev :: devs' =>
      e ← capability_entry dev;
      collect_capabilities devs'
        match e with
        | Some (i, entry) => <[i := entry]> m
        | None => m
        end
  end.

(** The conversion of the parsed [devices.json] into the capability map. *)
Definition load_capabilities (devices_data : pyval) : M (gmap string dict) :=
  match devices_data with
  | PDict data =>
      devs ← iterate (SafetyChecker.get_default data "devices" (PList []));
      collect_capabilities devs ∅
  | _ => raise AttributeError
  end.

Definition seed_bath : string :=
  "User prefers a bath at 42 degrees Celsius after a workout.".
Definition seed_lighting : string :=
  "After stressful meetings, the user likes soft lighting and calm music.".
Definition seed_metadata : dict := [("tag", PStr "preference"); ("type", PStr "fact")].

Section Service.
Context {C : Type} `{ChromaStore.Collection C} `{ChromaStore.Serializer}.

(** The body of the [try] of [startup_event]. [devices_json] is [None]
    when the file does not exist, otherwise what [json.load] gives;
    [new_store] is what constructing the [ChromaStore] gives; [GLOBAL_LLM]
    is the configured model, if any. The orchestrator and [app.state] share
    one store, so the orchestrator sees the two seeded documents. *)
Definition startup_body (devices_json : option (outcome pyval)) (new_store : outcome C)
    (GLOBAL_LLM : option LangchainLLMClient.t) (fresh1 fresh2 : ChromaStore.Fresh)
    : M (@ThinkOrchestrator.t C) :=
  devices_data ←
    match devices_json with
    | None =>
        log ERROR "FATAL: devices.json not found at {DEVICES_JSON_PATH}";;
        raise (ExternalError "FileNotFoundError")
    | Some loaded => ChromaStore.call loaded
    end;
  device_capabilities ← load_capabilities devices_data;
  log INFO "Loaded capabilities for {len(app.state.device_capabilities)} devices.";;
  store ← ChromaStore.call new_store;
  llm ←
    match GLOBAL_LLM with
    | None => raise ValueError
    | Some llm => mret llm
    end;
  budget ← ProactivityBudget.init 10;
  log INFO "ThinkOrchestrator initialized with Capabilities, ChromaStore, LCEL Client, and Cooldown Budget.";;
  let first := ChromaStore.add_document store fresh1 seed_bath (Some seed_metadata) in
  first.1;;
  let second := ChromaStore.add_document first.2 fresh2 seed_lighting (Some seed_metadata) in
  second.1;;
  log INFO "THINK: Service started, orchestrator and memory initialized.";;
  mret (ThinkOrchestrator.mk llm (Some second.2) device_capabilities budget).

(** [startup_event]: the value of [app.state.orchestrator] it leaves. *)
Definition startup_event (devices_json : option (outcome pyval)) (new_store : outcome C)
    (GLOBAL_LLM : option LangchainLLMClient.t) (fresh1 fresh2 : ChromaStore.Fresh)
    : M (option (@ThinkOrchestrator.t C)) :=
  try_except
    (orchestrator ← startup_body devices_json new_store GLOBAL_LLM fresh1 fresh2;
     mret (Some orchestrator))
    (fun e =>
       log ERROR "FATAL: Failed to initialize THINK module: {e}";;
       mret None).

(** [forward_suggestion(suggestion)]; [post] is what the request to the
    ACTION module gives. The value is the list of requests attempted, none
    or one, each with the suggestion it carried. *)
Definition forward_suggestion (post : SuggestionSchema.t → outcome unit)
    (suggestion : SuggestionSchema.t) : M (list SuggestionSchema.t) :=
  if negb (SuggestionSchema.should_suggest suggestion) then mret []
  else
    log INFO "THINK: Forwarding suggestion to ACTION: {suggestion.suggestion_text}";;
    try_except
      (ChromaStore.call (post suggestion);; mret [suggestion])
      (fun e =>
         log ERROR "THINK: Error forwarding suggestion to ACTION: {e}";;
         mret [suggestion]).

(** What a call of the endpoint leaves behind: the response, the
    suggestions handed to [background_tasks] for forwarding, and the
    orchestrator with its budget as the call left it. *)
Record Handled := mkHandled {
  response : Response;
  background_tasks : list SuggestionSchema.t;
  orchestrator_after : option (@ThinkOrchestrator.t C);
}.

(** [process_context_endpoint(packet, request, background_tasks)], the
    clock reading [now]. An exception of [process_context] is raised before
    the budget is consulted, so the budget is then as it was. *)
Definition process_context_endpoint (orchestrator : option (@ThinkOrchestrator.t C))
    (now : Z) (packet : ContextPacket.t) : M Handled :=
  match orchestrator with
  | None =>
      log ERROR "Rejecting request: THINK module is not initialized.";;
      mret (mkHandled
              (HTTPException 503 "THINK module is not initialized. Check logs.") [] None)
  | Some self =>
      try_except
        (r ← ThinkOrchestrator.process_context self now packet;
         let suggestion := r.1 in
         let self' :=
           ThinkOrchestrator.mk (ThinkOrchestrator.llm_client self)
             (ThinkOrchestrator.memory self)
             (ThinkOrchestrator.device_capabilities self) r.2 in
         mret (mkHandled
                 (Accepted (SuggestionSchema.confidence suggestion))
                 (if SuggestionSchema.should_suggest suggestion then [suggestion] else [])
                 (Some self')))
        (fun e =>
           log ERROR "THINK: Error in process_context: {e}";;
           mret (mkHandled (HTTPException 500 "Error processing context") [] (Some self)))
  end.

(** The request and its background tasks together: the response and the
    requests attempted on the ACTION module. *)
Definition serve (post : SuggestionSchema.t → outcome unit)
    (orchestrator : option (@ThinkOrchestrator.t C)) (now : Z)
    (packet : ContextPacket.t) : M (Handled * list SuggestionSchema.t) :=
  handled ← process_context_endpoint orchestrator now packet;
  sent ← foldr (fun suggestion rest =>
                  first ← forward_suggestion post suggestion;
                  others ← rest;
                  mret (first ++ others))
               (mret []) (background_tasks handled);
  mret (handled, sent).

End Service.

End ThinkService.

(** ** Sequences of calls *)

Module Calls.

(** [allow()] called once at each of the clock readings [times], in order:
    the answers, and the budget after the last call. *)
Fixpoint allow_each (times : list Z) (budget : ProactivityBudget.t)
    : list bool * ProactivityBudget.t :=
  match times with
  | [] => ([], budget)
  | now :: times' =>
      match result (ProactivityBudget.allow now budget) with
      | Return (answer, budget') =>
          let '(answers, final) := allow_each times' budget' in
          (answer :: answers, final)
      | Raise _ => ([], budget)
      end
  end.


(** Each element and its successor are related by [R]. *)
Fixpoint adjacent {A} (R : A → A → Prop) (l : list A) : Prop :=
  match l with
  | x :: (y :: _) as l' => R x y ∧ adjacent R l'
  | _ => True
  end.

(** What the collection accepts as a metadata value. *)
Definition is_scalar (v : pyval) : bool :=
  match v with
  | PList _ | PDict _ => false
  | _ => true
  end.

(** A capability mapping with exactly the two keys the loader writes. *)
Definition both_keys (caps : dict) : Prop :=
  ∃ functions parameters, caps = [("functions", functions); ("parameters", parameters)].

(** The phrases of the facets that a context carries, in the order
    activity, stress, room, place; an empty place is no facet. *)
Definition facets (ctx : ContextPacket.t) : list string :=
  let activity : option ActivityStatus :=
    ContextPacket.biometric ctx ≫= BiometricContext.activity_status in
  let stress : option StressLevel :=
    ContextPacket.biometric ctx ≫= BiometricContext.stress_level in
  let occupancy : option Occupancy :=
    ContextPacket.environment ctx ≫= EnvironmentContext.occupancy in
  let place : option string :=
    p ← ContextPacket.location ctx ≫= LocationContext.place;
    if decide (p = EmptyString) then None else Some p in
  option_list ((fun a => "user activity " +:+ ThinkOrchestrator.activity_str a) <$> activity)
  ++ option_list ((fun s => "user stress " +:+ ThinkOrchestrator.stress_str s) <$> stress)
  ++ option_list ((fun o => "room " +:+ ThinkOrchestrator.occupancy_str o) <$> occupancy)
  ++ option_list ((fun p => "user at " +:+ p) <$> place).

End Calls.

(** ** Further fixtures *)

Module Fixtures.

(** A parsed [devices.json] with the three devices of the demo; the last
    one declares no functions. *)
Definition devices_json : pyval :=
  PDict [("devices",
          PList [PDict [("id", PStr "smart_light_1");
                        ("functions", PList [PStr "on"; PStr "off"; PStr "set_brightness"]);
                        ("parameters", PDict [("brightness", PList [PInt 0; PInt 100])])];
                 PDict [("id", PStr "smart_ac_1");
                        ("functions", PList [PStr "set_temperature"]);
                        ("parameters", PDict [("temperature", PList [PInt 16; PInt 30])])];
                 PDict [("id", PStr "smart_plug_1")]])].

(** A capability spec whose range has no upper number. *)
Definition open_range_device : DeviceState.t :=
  DeviceState.mk "heater_1" None true []
    (Some [("functions", PList [PStr "set_temperature"]);
           ("parameters", PDict [("temperature", PList [PInt 16; PStr "max"])])]).

(** Two states for one id; the second has the capabilities. *)
Definition stale_light : DeviceState.t :=
  DeviceState.mk "smart_light_1" None false [] (Some []).

Definition post_ok : SuggestionSchema.t → outcome unit := fun _ => Return tt.
Definition post_fails : SuggestionSchema.t → outcome unit :=
  fun _ => Raise (ExternalError "connection refused").

(** A context after a workout at home, with a geyser that is off. *)
Definition after_workout_ctx : ContextPacket.t :=
  ContextPacket.mk 0
    (Some (BiometricContext.mk (Some 120%Q) (Some post_workout) (Some low) None (Some 1%Q)))
    (Some (LocationContext.mk (Some "home") None (Some 1%Q)))
    None None
    [Demo.geyser (Some []); Demo.living_light (Some [])]
    [].

(** A collection that holds documents but whose search fails, beside an
    Ollama that cannot be reached. *)
Record Unreachable := mkUnreachable { held : nat }.

#[global] Instance unreachable_collection : ChromaStore.Collection Unreachable := {|
  ChromaStore.distance := Q;
  ChromaStore.ollama_post := fun _ => Raise (ExternalError "connection refused");
  ChromaStore.naive_component := fun _ => Fin 0.5;
  ChromaStore.similarity_ge := fun d t => Qle_bool t (1 - d);
  ChromaStore.count := fun c => Return (held c);
  ChromaStore.query := fun _ _ _ => Raise (ExternalError "chroma query failed");
  ChromaStore.add := fun c _ _ _ _ => (Return tt, mkUnreachable (S (held c)));
|}.

End Fixtures.

(** * Properties *)

(** ** Computations *)

Section Computations.
Context {A B : Type}.

Lemma result_bind (m : M A) (k : A → M B) :
  result (m ≫= k) = match result m with
                    | Return a => result (k a)
                    | Raise e => Raise e
                    end.
Proof.
  destruct m as [l [a|e]]; cbn; [|done].
  by destruct (k a).
Qed.

Lemma result_bind_Return (m : M A) (k : A → M B) (a : A) (o : outcome B) :
  result m = Return a → result (k a) = o → result (m ≫= k) = o.
Proof. intros Hm Hk. by rewrite result_bind, Hm. Qed.

Lemma try_except_returns (m : M A) (h : exn → M A) :
  (∀ e, ∃ a, result (h e) = Return a) → ∃ a, result (try_except m h) = Return a.
Proof.
  intros Hh. destruct m as [l [a|e]]; simpl; [by exists a|].
  destruct (Hh e) as [a Ha]. exists a. by destruct (h e).
Qed.

End Computations.

(** ** Strings *)

Lemma prefix_app (needle post : string) : String.prefix needle (needle +:+ post) = true.
Proof.
  induction needle as [|c needle IH].
  - change (EmptyString +:+ post) with post. by destruct post.
  - change (String c needle +:+ post) with (String c (needle +:+ post)). simpl.
    destruct (Ascii.ascii_dec c c); [apply IH | done].
Qed.

Lemma prefix_inv (needle hay : string) :
  String.prefix needle hay = true → ∃ post, hay = needle +:+ post.
Proof.
  revert hay. induction needle as [|c needle IH]; intros hay Hp.
  - by exists hay.
  - destruct hay as [|c' hay]; [done|]. simpl in Hp.
    destruct (Ascii.ascii_dec c c') as [->|]; [|done].
    destruct (IH _ Hp) as [post ->]. by exists post.
Qed.

Lemma str_contains_unfold (needle hay : string) :
  str_contains needle hay =
  String.prefix needle hay ||
  match hay with
  | EmptyString => false
  | String _ hay' => str_contains needle hay'
  end.
Proof. by destruct hay. Qed.

(** The substring test of the code decides the relation "occurs in". *)
Lemma str_contains_spec (needle hay : string) :
  str_contains needle hay = true ↔ Policy.substring needle hay.
Proof.
  split.
  - induction hay as [|c hay IH]; rewrite str_contains_unfold;
      intros [Hp|Hc]%orb_true_iff; try done.
    + destruct (prefix_inv _ _ Hp) as [post ->]. by exists EmptyString, post.
    + destruct (prefix_inv _ _ Hp) as [post ->]. by exists EmptyString, post.
    + destruct (IH Hc) as (pre & post & ->). by exists (String c pre), post.
  - intros (pre & post & ->).
    induction pre as [|c pre IH].
    + change (EmptyString +:+ needle +:+ post) with (needle +:+ post).
      by rewrite str_contains_unfold, prefix_app.
    + change (String c pre +:+ needle +:+ post)
        with (String c (pre +:+ needle +:+ post)).
      rewrite str_contains_unfold, IH. apply orb_true_r.
Qed.

(** *** The time pattern *)

Lemma append_nil_r (s : string) : s +:+ EmptyString = s.
Proof.
  induction s as [|c s IH]; [done|].
  change (String c s +:+ EmptyString) with (String c (s +:+ EmptyString)).
  by rewrite IH.
Qed.


Lemma strip_prefix_spec (p s rest : string) :
  strip_prefix p s = Some rest ↔ s = p +:+ rest.
Proof.
  revert s. induction p as [|a p IH]; intros s.
  - change (EmptyString +:+ rest) with rest. simpl.
    split; [by intros [= ->] | by intros ->].
  - change (String a p +:+ rest) with (String a (p +:+ rest)).
    destruct s as [|b s]; simpl; [split; discriminate|].
    destruct (Ascii.eqb_spec a b) as [->|Hne].
    + rewrite IH. split; [by intros -> | by intros [= ->]].
    + split; [discriminate | intros [= ? ?]; congruence].
Qed.

(** Two strings that start alike: one of the heads starts the other. *)
Lemma append_prefix (d d' r r' : string) :
  d +:+ r = d' +:+ r' → String.prefix d d' = true ∨ String.prefix d' d = true.
Proof.
  revert d'. induction d as [|a d IH]; intros d' Heq.
  - left. by destruct d'.
  - destruct d' as [|b d']; [by right|].
    change (String a (d +:+ r) = String b (d' +:+ r')) in Heq.
    injection Heq as -> Heq. simpl.
    destruct (Ascii.ascii_dec b b); [|done]. by apply IH.
Qed.

(** No decimal digit starts another: UTF-8 is prefix-free. *)
Lemma decimal_digits_prefix_free_check :
  forallb (fun d => forallb (fun d' => implb (String.prefix d d') (String.eqb d d'))
                      decimal_digits) decimal_digits = true.
Proof. vm_compute. reflexivity. Qed.

Lemma decimal_digit_unique (d d' r r' : string) :
  is_digit d = true → is_digit d' = true → d +:+ r = d' +:+ r' → d = d' ∧ r = r'.
Proof.
  intros Hd%bool_decide_eq_true_1 Hd'%bool_decide_eq_true_1 Heq.
  assert (d = d') as ->; [|split; [done | by apply String.app_inj in Heq]].
  pose proof decimal_digits_prefix_free_check as Hfree.
  rewrite forallb_forall in Hfree.
  apply list_elem_of_In in Hd, Hd'.
  destruct (append_prefix _ _ _ _ Heq) as [Hp | Hp].
  - pose proof (Hfree d Hd) as Hall. rewrite forallb_forall in Hall.
    specialize (Hall d' Hd'). rewrite Hp in Hall. by apply String.eqb_eq.
  - pose proof (Hfree d' Hd') as Hall. rewrite forallb_forall in Hall.
    specialize (Hall d Hd). rewrite Hp in Hall. symmetry. by apply String.eqb_eq.
Qed.

Lemma skip_any_Some (ps : list string) (s rest : string) :
  skip_any ps s = Some rest → ∃ p, p ∈ ps ∧ s = p +:+ rest.
Proof.
  induction ps as [|p ps IH]; simpl; [done|].
  destruct (strip_prefix p s) as [rest'|] eqn:Hp.
  - intros [= ->]. exists p. split; [by left | by apply strip_prefix_spec].
  - intros (p' & Hin & ->)%IH. exists p'. split; [by right | done].
Qed.

Lemma skip_any_is_Some (ps : list string) (p rest : string) :
  p ∈ ps → is_Some (skip_any ps (p +:+ rest)).
Proof.
  induction ps as [|p' ps IH]; [by intros ?%elem_of_nil|]. simpl.
  destruct (strip_prefix p' (p +:+ rest)) eqn:Hp; [by eexists|].
  intros [->|Hin]%elem_of_cons; [|by apply IH].
  by rewrite (proj2 (strip_prefix_spec p' (p' +:+ rest) rest) eq_refl) in Hp.
Qed.

(** [\d] consumes exactly one decimal digit. *)
Lemma skip_digit_spec (s rest : string) :
  skip_digit s = Some rest ↔ ∃ d, is_digit d = true ∧ s = d +:+ rest.
Proof.
  unfold skip_digit. split.
  - intros (p & Hin & ->)%skip_any_Some. exists p.
    split; [unfold is_digit; by apply bool_decide_eq_true_2 | done].
  - intros (d & Hd & ->).
    destruct (skip_any_is_Some decimal_digits d rest) as [rest' Hrest].
    { unfold is_digit in Hd. by apply bool_decide_eq_true_1 in Hd. }
    rewrite Hrest. f_equal.
    apply skip_any_Some in Hrest as (p & Hin & Heq).
    assert (is_digit p = true) as Hp
      by (unfold is_digit; by apply bool_decide_eq_true_2).
    by destruct (decimal_digit_unique d p rest rest' Hd Hp Heq).
Qed.

Lemma skip_HH_MM_spec (s rest : string) :
  skip_HH_MM s = Some rest ↔
  ∃ a b c d,
    is_digit a = true ∧ is_digit b = true ∧ is_digit c = true ∧ is_digit d = true ∧
    s = a +:+ b +:+ ":" +:+ c +:+ d +:+ rest.
Proof.
  unfold skip_HH_MM. split.
  - intros (r1 & H1 & (r2 & H2 & (r3 & H3 & (r4 & H4 & H5)%bind_Some)%bind_Some
                      )%bind_Some)%bind_Some.
    apply skip_digit_spec in H1 as (a & Ha & ->).
    apply skip_digit_spec in H2 as (b & Hb & ->).
    apply strip_prefix_spec in H3 as ->.
    apply skip_digit_spec in H4 as (c & Hc & ->).
    apply skip_digit_spec in H5 as (d & Hd & ->).
    by exists a, b, c, d.
  - intros (a & b & c & d & Ha & Hb & Hc & Hd & ->).
    apply bind_Some. exists (b +:+ ":" +:+ c +:+ d +:+ rest).
    split; [apply skip_digit_spec; by exists a|].
    apply bind_Some. exists (":" +:+ c +:+ d +:+ rest).
    split; [apply skip_digit_spec; by exists b|].
    apply bind_Some. exists (c +:+ d +:+ rest).
    split; [by apply strip_prefix_spec|].
    apply bind_Some. exists (d +:+ rest).
    split; apply skip_digit_spec; [by exists c | by exists d].
Qed.

Lemma two_digits_colon_two_digits_spec (s : string) :
  Policy.two_digits_colon_two_digits s ↔ skip_HH_MM s = Some EmptyString.
Proof.
  rewrite skip_HH_MM_spec. unfold Policy.two_digits_colon_two_digits.
  split; intros (a & b & c & d & Ha & Hb & Hc & Hd & ->); exists a, b, c, d;
    by rewrite ?append_nil_r in *.
Qed.

(** ** The device map *)

Lemma foldl_insert_lookup_Some (devices : list DeviceState.t)
    (m : gmap string DeviceState.t) (i : string) (d : DeviceState.t) :
  foldl (fun m d => <[DeviceState.id d := d]> m) m devices !! i = Some d →
  (d ∈ devices ∧ DeviceState.id d = i) ∨ m !! i = Some d.
Proof.
  revert m. induction devices as [|d' devices IH]; intros m; simpl; [by right|].
  intros [[Hin Hid]|Hm]%IH.
  - left. split; [by right | done].
  - destruct (decide (DeviceState.id d' = i)) as [<-|Hne].
    + rewrite lookup_insert_eq in Hm. injection Hm as ->. left. split; [by left | done].
    + rewrite lookup_insert_ne in Hm by done. by right.
Qed.

Lemma foldl_insert_is_Some (devices : list DeviceState.t)
    (m : gmap string DeviceState.t) (i : string) :
  (∃ d, d ∈ devices ∧ DeviceState.id d = i) ∨ is_Some (m !! i) →
  is_Some (foldl (fun m d => <[DeviceState.id d := d]> m) m devices !! i).
Proof.
  revert m. induction devices as [|d' devices IH]; intros m; simpl.
  - intros [(d & Hin & _)|Hm]; [by apply elem_of_nil in Hin | done].
  - intros [(d & Hin & Hid)|Hm]; apply IH.
    + apply elem_of_cons in Hin as [->|Hin].
      * right. rewrite <- Hid, lookup_insert_eq. by eexists.
      * left. by exists d.
    + right. destruct (decide (DeviceState.id d' = i)) as [<-|Hne].
      * rewrite lookup_insert_eq. by eexists.
      * by rewrite lookup_insert_ne.
Qed.

(** A device is in the map exactly when some device of the list has the id. *)
Lemma dev_map_is_Some (devices : list DeviceState.t) (i : string) :
  is_Some (SafetyChecker.dev_map devices !! i) ↔
  ∃ d, d ∈ devices ∧ DeviceState.id d = i.
Proof.
  split.
  - intros [d Hd]. apply foldl_insert_lookup_Some in Hd as [Hd|Hd]; [by exists d|].
    by rewrite lookup_empty in Hd.
  - intros Hex. apply foldl_insert_is_Some. by left.
Qed.

Lemma dev_map_lookup_Some (devices : list DeviceState.t) (i : string) (d : DeviceState.t) :
  SafetyChecker.dev_map devices !! i = Some d → d ∈ devices ∧ DeviceState.id d = i.
Proof.
  intros Hd. apply foldl_insert_lookup_Some in Hd as [Hd|Hd]; [done|].
  by rewrite lookup_empty in Hd.
Qed.

Lemma foldl_insert_lookup_other (devices : list DeviceState.t)
    (m : gmap string DeviceState.t) (i : string) :
  i ∉ DeviceState.id <$> devices →
  foldl (fun m d => <[DeviceState.id d := d]> m) m devices !! i = m !! i.
Proof.
  revert m. induction devices as [|d' devices IH]; intros m Hnotin; simpl; [done|].
  rewrite fmap_cons in Hnotin. apply not_elem_of_cons in Hnotin as [Hne Hnotin].
  rewrite IH by done. by rewrite lookup_insert_ne.
Qed.

(** When the ids are unique, as the context model requires, the map holds
    every device of the list under its id. *)
Lemma dev_map_unique_ids (devices : list DeviceState.t) (d : DeviceState.t) :
  NoDup (DeviceState.id <$> devices) → d ∈ devices →
  SafetyChecker.dev_map devices !! DeviceState.id d = Some d.
Proof.
  unfold SafetyChecker.dev_map. generalize (∅ : gmap string DeviceState.t).
  induction devices as [|d' devices IH]; intros m Hnodup Hin; simpl.
  - by apply elem_of_nil in Hin.
  - rewrite fmap_cons in Hnodup. apply NoDup_cons in Hnodup as [Hfresh Hnodup].
    apply elem_of_cons in Hin as [-> | Hin].
    + rewrite foldl_insert_lookup_other by done. apply lookup_insert_eq.
    + by apply IH.
Qed.

(** ** The blacklist *)

(** C2. An action whose device id contains "router", "refrigerator" or
    "security_camera", and whose device is among the device states, is
    answered unsafe, whatever the capabilities of the device, the command
    and the parameter values. *)
Theorem blacklisted_device_is_unsafe (action : ActionCommand.t)
    (devices : list DeviceState.t) (bad : string) :
  bad = "router" ∨ bad = "refrigerator" ∨ bad = "security_camera" →
  Policy.substring bad (ActionCommand.device_id action) →
  (∃ d, d ∈ devices ∧ DeviceState.id d = ActionCommand.device_id action) →
  result (SafetyChecker.is_action_safe action devices) = Return false.
Proof.
  intros Hbad Hsub Hdev.
  apply dev_map_is_Some in Hdev as [dev Hdev].
  apply str_contains_spec in Hsub.
  unfold SafetyChecker.is_action_safe. rewrite Hdev.
  assert (existsb (fun bad => str_contains bad (ActionCommand.device_id action))
            SafetyChecker.SAFE_DEVICE_BLACKLIST = true) as ->; [|done].
  apply existsb_exists. exists bad. split; [|done].
  unfold SafetyChecker.SAFE_DEVICE_BLACKLIST.
  destruct Hbad as [-> | [-> | ->]]; simpl; auto.
Qed.

Lemma blacklisted_device_is_unsafe_witness :
  result (SafetyChecker.is_action_safe Demo.router_off [Demo.router]) = Return false.
Proof.
  apply (blacklisted_device_is_unsafe Demo.router_off [Demo.router] "router").
  - by left.
  - by exists "home_", "_1".
  - exists Demo.router. split; [apply list_elem_of_here | reflexivity].
Defined.

(** ** The proactivity budget *)

Lemma init_budget (cooldown_minutes : Z) :
  ProactivityBudget.timedelta_fits cooldown_minutes = true →
  result (ProactivityBudget.init cooldown_minutes)
  = Return (ProactivityBudget.mk (ProactivityBudget.timedelta_minutes cooldown_minutes) None).
Proof. intros Hfits. unfold ProactivityBudget.init. by rewrite Hfits. Qed.

Lemma allow_first (now threshold : Z) :
  ProactivityBudget.allow now (ProactivityBudget.mk threshold None)
  = ([LogRecord INFO "Proactivity budget ALLOWED. (First suggestion)"],
     Return (true, ProactivityBudget.mk threshold (Some now))).
Proof. reflexivity. Qed.

Lemma allow_denied (now last threshold : Z) :
  (now - last < threshold)%Z →
  result (ProactivityBudget.allow now (ProactivityBudget.mk threshold (Some last)))
  = Return (false, ProactivityBudget.mk threshold (Some last)).
Proof.
  intros Hlt. unfold ProactivityBudget.allow. simpl.
  destruct (Z.leb_spec threshold (now - last)); [lia | done].
Qed.

Lemma allow_after_cooldown (now last threshold : Z) :
  (threshold ≤ now - last)%Z →
  result (ProactivityBudget.allow now (ProactivityBudget.mk threshold (Some last)))
  = Return (true, ProactivityBudget.mk threshold (Some now)).
Proof.
  intros Hle. unfold ProactivityBudget.allow. simpl.
  destruct (Z.leb_spec threshold (now - last)); [done | lia].
Qed.

(** C3. A budget with cooldown [C] and no allowed suggestion yet: the first
    [allow()], at time [t1], answers true and records [t1]; a second call
    at [t2], less than [C] after [t1], answers false and leaves the record
    at [t1]; a later call at [t3], at least [C] after [t1], answers true
    and moves the record to [t3]. *)
Theorem allow_cooldown_sequence (C t1 t2 t3 : Z) :
  (t2 - t1 < C)%Z →
  (C ≤ t3 - t1)%Z →
  let fresh_budget := ProactivityBudget.mk C None in
  let recorded t := ProactivityBudget.mk C (Some t) in
  result (ProactivityBudget.allow t1 fresh_budget) = Return (true, recorded t1) ∧
  result (ProactivityBudget.allow t2 (recorded t1)) = Return (false, recorded t1) ∧
  result (ProactivityBudget.allow t3 (recorded t1)) = Return (true, recorded t3).
Proof.
  intros Hsoon Hlate. cbv zeta.
  split; [done|].
  split; [by apply allow_denied | by apply allow_after_cooldown].
Qed.

Lemma allow_cooldown_sequence_witness :
  let C := Demo.ten_minutes in
  result (ProactivityBudget.allow 0 (ProactivityBudget.mk C None))
    = Return (true, ProactivityBudget.mk C (Some 0%Z)) ∧
  result (ProactivityBudget.allow 60000000 (ProactivityBudget.mk C (Some 0%Z)))
    = Return (false, ProactivityBudget.mk C (Some 0%Z)) ∧
  result (ProactivityBudget.allow 600000000 (ProactivityBudget.mk C (Some 0%Z)))
    = Return (true, ProactivityBudget.mk C (Some 600000000%Z)).
Proof.
  apply (allow_cooldown_sequence Demo.ten_minutes 0 60000000 600000000).
  - vm_compute. reflexivity.
  - vm_compute. discriminate.
Defined.

(** ** The rule engine *)

Lemma ids_where_lit (devices : list DeviceState.t) :
  DecisionGraph.ids_where
    (fun d => DeviceState.on d && str_contains "light" (DeviceState.id d)) devices
  = Policy.lit_ids devices.
Proof.
  unfold DecisionGraph.ids_where, Policy.lit_ids. f_equal.
  apply list_filter_iff. intros d. by rewrite andb_true_iff.
Qed.

Lemma elem_of_lit_ids (devices : list DeviceState.t) (i : string) :
  i ∈ Policy.lit_ids devices ↔
  ∃ d, d ∈ devices ∧ DeviceState.on d = true
       ∧ Policy.substring "light" (DeviceState.id d) ∧ DeviceState.id d = i.
Proof.
  unfold Policy.lit_ids. rewrite list_elem_of_fmap. split.
  - intros (d & -> & [[Hon Hlight] Hin]%list_elem_of_filter).
    exists d. by rewrite <- str_contains_spec.
  - intros (d & Hin & Hon & Hlight%str_contains_spec & <-).
    exists d. split; [done|]. by apply list_elem_of_filter.
Qed.

Lemma elem_of_sorted_set (ids : list string) (i : string) :
  i ∈ Policy.sorted_set ids ↔ i ∈ ids.
Proof.
  unfold Policy.sorted_set.
  by rewrite merge_sort_Permutation, elem_of_remove_dups.
Qed.

(** C4, as the specification words it, fails: in a vacant room whose two
    lit lights are listed as "light_b", "light_a", the single
    turn_off_room_lights candidate targets them in that order, while the
    sorted set of the ids is "light_a", "light_b". *)
Lemma targets_are_not_sorted :
  let ctx := Demo.two_lights_ctx in
  (ContextPacket.environment ctx ≫= EnvironmentContext.occupancy) = Some vacant ∧
  (∃ d, d ∈ ContextPacket.devices ctx ∧ DeviceState.on d = true
        ∧ Policy.substring "light" (DeviceState.id d)) ∧
  ¬ ∃ c, Policy.of_type "turn_off_room_lights"
           (DecisionGraph.candidates_from_context ctx) = [c]
         ∧ Candidate.target_devices c
           = Policy.sorted_set (Policy.lit_ids (ContextPacket.devices ctx)).
Proof.
  cbv zeta. split; [reflexivity|]. split.
  - eexists. split; [apply list_elem_of_here|].
    split; [reflexivity|]. by exists EmptyString, "_b".
  - intros (c & Hc & Htargets).
    vm_compute in Hc. injection Hc as <-.
    vm_compute in Htargets. discriminate Htargets.
Qed.

(** C4, amended. In a vacant room with at least one device that is on and
    whose id contains "light", the candidates hold exactly one
    turn_off_room_lights candidate; its targets are the ids of the devices
    that are on and contain "light", in the order of the device list, and
    so have the same members as the sorted set of those ids. *)
Theorem vacant_room_lights_candidate (ctx : ContextPacket.t) :
  (ContextPacket.environment ctx ≫= EnvironmentContext.occupancy) = Some vacant →
  (∃ d, d ∈ ContextPacket.devices ctx ∧ DeviceState.on d = true
        ∧ Policy.substring "light" (DeviceState.id d)) →
  ∃ c, Policy.of_type "turn_off_room_lights"
         (DecisionGraph.candidates_from_context ctx) = [c]
       ∧ Candidate.target_devices c = Policy.lit_ids (ContextPacket.devices ctx)
       ∧ ∀ i, i ∈ Candidate.target_devices c
              ↔ i ∈ Policy.sorted_set (Policy.lit_ids (ContextPacket.devices ctx)).
Proof.
  intros Hvacant (d & Hin & Hon & Hlight).
  assert (DeviceState.id d ∈ Policy.lit_ids (ContextPacket.devices ctx)) as Hne.
  { apply elem_of_lit_ids. by exists d. }
  exists (Candidate.mk "turn_off_room_lights"
            (Policy.lit_ids (ContextPacket.devices ctx))
            "room appears empty and lights are on").
  split; [|split; [done | intros i; by rewrite elem_of_sorted_set]].
  unfold DecisionGraph.candidates_from_context. rewrite ids_where_lit.
  destruct (ContextPacket.environment ctx) as [env|]; [|done]. simpl in Hvacant.
  rewrite Hvacant.
  destruct (Policy.lit_ids (ContextPacket.devices ctx)) as [|i0 ids] eqn:Hids;
    [by apply elem_of_nil in Hne|].
  cbv zeta. unfold Policy.of_type.
  repeat case_match; reflexivity.
Qed.

Lemma vacant_room_lights_candidate_witness :
  ∃ c, Policy.of_type "turn_off_room_lights"
         (DecisionGraph.candidates_from_context Demo.two_lights_ctx) = [c]
       ∧ Candidate.target_devices c = ["light_b"; "light_a"]
       ∧ ∀ i, i ∈ Candidate.target_devices c ↔ i ∈ ["light_a"; "light_b"].
Proof.
  apply (vacant_room_lights_candidate Demo.two_lights_ctx).
  - reflexivity.
  - eexists. split; [apply list_elem_of_here|].
    split; [reflexivity|]. by exists EmptyString, "_b".
Defined.

(** ** The policy validator *)

Lemma check_params_cons (available_params : pyval) (device_id name : string)
    (v : pyval) (items : dict) :
  result (SafetyChecker.check_params available_params device_id ((name, v) :: items))
  = match result (SafetyChecker.check_param available_params device_id name v) with
    | Return (Some b) => Return b
    | Return None => result (SafetyChecker.check_params available_params device_id items)
    | Raise e => Raise e
    end.
Proof.
  cbn [SafetyChecker.check_params]. rewrite result_bind.
  by destruct (result _) as [[b|]|e].
Qed.

(** A parameter whose turn of the loop ends without a [return] can be
    taken out of the action without changing the answer. *)
Lemma check_params_skip (available_params : pyval) (device_id name : string)
    (v : pyval) (before after : dict) :
  result (SafetyChecker.check_param available_params device_id name v) = Return None →
  result (SafetyChecker.check_params available_params device_id
            (before ++ (name, v) :: after))
  = result (SafetyChecker.check_params available_params device_id (before ++ after)).
Proof.
  intros Hskip. induction before as [|[k w] before IH]; simpl app.
  - by rewrite check_params_cons, Hskip.
  - rewrite !check_params_cons. by rewrite IH.
Qed.

(** C10. A parameter whose declared spec is a list that starts with a
    number and does not have exactly two elements: the validator logs the
    warning about the format and goes on to the next parameter, whatever
    the supplied value; the answer for the action is the one it would get
    without that parameter. *)
Theorem malformed_numeric_spec_is_not_checked (devices : list DeviceState.t)
    (dev : DeviceState.t) (caps parameters : dict) (device_id command name : string)
    (first : pyval) (rest : list pyval) (before after : dict) (v : pyval) :
  SafetyChecker.dev_map devices !! device_id = Some dev →
  DeviceState.capabilities dev = Some caps →
  dict_get "parameters" caps = Some (PDict parameters) →
  dict_get name parameters = Some (PList (first :: rest)) →
  is_number first = true →
  length (first :: rest) ≠ 2%nat →
  SafetyChecker.check_param (PDict parameters) device_id name v
  = ([LogRecord WARNING
        "SafetyCheck: Numeric param spec '%s' has invalid format (not [min, max])."],
     Return None) ∧
  result (SafetyChecker.is_action_safe
            (ActionCommand.mk device_id command (before ++ (name, v) :: after)) devices)
  = result (SafetyChecker.is_action_safe
              (ActionCommand.mk device_id command (before ++ after)) devices).
Proof.
  intros Hdev Hcaps Hparams Hspec Hnum Hlen.
  assert (SafetyChecker.check_param (PDict parameters) device_id name v
          = ([LogRecord WARNING
                "SafetyCheck: Numeric param spec '%s' has invalid format (not [min, max])."],
             Return None)) as Hturn.
  { unfold SafetyChecker.check_param, py_in, py_getitem. rewrite Hspec.
    rewrite bool_decide_eq_true_2 by (by eexists). cbn. rewrite Hnum.
    destruct rest as [|second [|third rest]]; [done | | done].
    by destruct Hlen. }
  split; [exact Hturn|].
  unfold SafetyChecker.is_action_safe.
  cbn [ActionCommand.device_id ActionCommand.command ActionCommand.params].
  rewrite Hdev.
  destruct (existsb _ _); [done|]. rewrite Hcaps.
  destruct caps as [|entry caps]; [done|].
  rewrite !result_bind.
  destruct (result (py_in _ _)) as [[|]|e]; simpl; [|done|done].
  unfold SafetyChecker.get_default. rewrite Hparams.
  apply check_params_skip. by rewrite Hturn.
Qed.

Lemma malformed_numeric_spec_is_not_checked_witness :
  SafetyChecker.check_param (PDict [("level", PList [PInt 0; PInt 50; PInt 100])])
    "dimmer_1" "level" (PInt 1000000)
  = ([LogRecord WARNING
        "SafetyCheck: Numeric param spec '%s' has invalid format (not [min, max])."],
     Return None) ∧
  result (SafetyChecker.is_action_safe
            (ActionCommand.mk "dimmer_1" "set_level" [("level", PInt 1000000)])
            [Demo.dimmer])
  = result (SafetyChecker.is_action_safe
              (ActionCommand.mk "dimmer_1" "set_level" []) [Demo.dimmer]).
Proof.
  apply (malformed_numeric_spec_is_not_checked [Demo.dimmer] Demo.dimmer
           [("functions", PList [PStr "set_level"]);
            ("parameters", PDict [("level", PList [PInt 0; PInt 50; PInt 100])])]
           [("level", PList [PInt 0; PInt 50; PInt 100])]
           "dimmer_1" "set_level" "level" (PInt 0) [PInt 50; PInt 100] [] []
           (PInt 1000000)).
  - vm_compute. reflexivity.
  - reflexivity.
  - reflexivity.
  - reflexivity.
  - reflexivity.
  - simpl. lia.
Defined.

(** C1 does not hold of the code. The pattern for the ["HH:MM"] token is
    anchored with [$], which also matches before a final newline: a
    schedule time of "12:34" followed by a line feed is answered safe,
    although it is not two digits, a colon and two digits. *)
Theorem newline_after_time_is_accepted :
  result (SafetyChecker.is_action_safe Demo.schedule_with_newline Demo.enriched_devices)
  = Return true ∧
  ¬ Policy.acceptable Policy.two_digits_colon_two_digits
      Demo.schedule_with_newline Demo.enriched_devices.
Proof.
  split; [vm_compute; reflexivity|].
  intros (dev & caps & Hdev & _ & Hcaps & _ & _ & Hparams).
  vm_compute in Hdev. injection Hdev as <-.
  injection Hcaps as <-.
  specialize (Hparams _ "schedule_time" (PStr ("12:34" +:+ newline)) (PStr "HH:MM")
                eq_refl (list_elem_of_here _ _) eq_refl).
  destruct Hparams as (s & [= <-] & Hformat).
  apply two_digits_colon_two_digits_spec in Hformat.
  vm_compute in Hformat. discriminate Hformat.
Qed.

(** *** The validator on capability specs of the documented shape

    Apart from the trailing newline that the pattern lets through, the
    validator answers safe exactly under the five conditions of the
    specification, and never raises. *)

Lemma py_eq_PStr (s : string) (e : pyval) : py_eq (PStr s) e = true ↔ e = PStr s.
Proof.
  destruct e; simpl; try (split; [discriminate | discriminate]).
  rewrite String.eqb_eq. split; [by intros -> | by intros [= ->]].
Qed.

Lemma existsb_py_eq_PStr (s : string) (l : list pyval) :
  existsb (py_eq (PStr s)) l = true ↔ PStr s ∈ l.
Proof.
  rewrite existsb_exists. split.
  - intros (e & Hin%list_elem_of_In & ->%py_eq_PStr). done.
  - intros Hin. exists (PStr s). split; [by apply list_elem_of_In | by apply py_eq_PStr].
Qed.








(** ** The memory collaborator *)

Section StoreFacts.
Context {C : Type} `{!ChromaStore.Collection C} `{!ChromaStore.Serializer}.

(** The embedding call has its own fallback and never raises. *)
Lemma get_ollama_embedding_returns (text : string) :
  ∃ embedding, result (ChromaStore.get_ollama_embedding text) = Return embedding.
Proof. apply try_except_returns. intros e. by eexists. Qed.

(** The duplicate check raises only what [count] raises. *)
Lemma is_duplicate_returns (self : C) (text : string) (threshold : Q) (n : nat) :
  ChromaStore.count self = Return n →
  ∃ b, result (ChromaStore._is_duplicate self text threshold) = Return b.
Proof.
  intros Hcount. unfold ChromaStore._is_duplicate. rewrite result_bind.
  unfold ChromaStore.call at 1. rewrite Hcount. cbn [result snd].
  destruct (Nat.eqb n 0); [by eexists|].
  apply try_except_returns. intros e. by eexists.
Qed.

Lemma is_duplicate_count_raises (self : C) (text : string) (threshold : Q) (e : exn) :
  ChromaStore.count self = Raise e →
  ChromaStore._is_duplicate self text threshold = ([], Raise e).
Proof.
  intros Hcount. unfold ChromaStore._is_duplicate, ChromaStore.call.
  by rewrite Hcount.
Qed.

(** What [add_document] does once the duplicate check has answered no and
    the metadata is a non-empty mapping: it hands the document to the
    collection, and ends as that call ends, with one more record in the
    log. *)
Lemma add_document_not_duplicate (self : C) (fresh : ChromaStore.Fresh)
    (text : string) (kv : string * pyval) (metadata : dict) (embedding : pyval) :
  result (ChromaStore._is_duplicate self text ChromaStore.THRESHOLD) = Return false →
  result (ChromaStore.get_ollama_embedding text) = Return embedding →
  let safe_meta :=
    ChromaStore.dict_set "timestamp" (PStr (ChromaStore.now_isoformat fresh))
      (ChromaStore.sanitize (kv :: metadata)) in
  let added := ChromaStore.add self text safe_meta embedding (ChromaStore.uuid4 fresh) in
  let r := ChromaStore.add_document self fresh text (Some (kv :: metadata)) in
  r.2 = added.2 ∧
  match added.1 with
  | Return _ =>
      result r.1 = Return (ChromaStore.uuid4 fresh) ∧
      logged r.1
      = logged (ChromaStore._is_duplicate self text ChromaStore.THRESHOLD)
        ++ logged (ChromaStore.get_ollama_embedding text)
        ++ [LogRecord INFO "Stored doc {doc_id} in '{self.collection.name}'"]
  | Raise e =>
      result r.1 = Raise e ∧
      logged r.1
      = logged (ChromaStore._is_duplicate self text ChromaStore.THRESHOLD)
        ++ logged (ChromaStore.get_ollama_embedding text)
        ++ [LogRecord ERROR "Chroma add_document error: {e}"]
  end.
Proof.
  intros Hdup Hemb. cbv zeta. unfold ChromaStore.add_document.
  destruct (ChromaStore._is_duplicate self text ChromaStore.THRESHOLD) as [l [b|e]];
    simpl in Hdup; [|done].
  injection Hdup as ->.
  destruct (ChromaStore.get_ollama_embedding text) as [l' [embedding'|e]];
    simpl in Hemb; [|done].
  injection Hemb as ->.
  by destruct (ChromaStore.add _ _ _ _ _) as [[[]|e] self'].
Qed.

(** C9. On a text that is not a duplicate, [add_document] called without
    metadata (or with [None]) raises [TypeError] and leaves the collection
    as it was; and whenever it returns an id on such a text, the metadata
    was a non-empty mapping. *)
Theorem add_document_needs_metadata (self : C) (fresh : ChromaStore.Fresh)
    (text : string) :
  result (ChromaStore._is_duplicate self text ChromaStore.THRESHOLD) = Return false →
  (result (ChromaStore.add_document self fresh text None).1 = Raise TypeError
   ∧ (ChromaStore.add_document self fresh text None).2 = self) ∧
  (∀ metadata doc_id,
     result (ChromaStore.add_document self fresh text metadata).1 = Return doc_id →
     ∃ kv items, metadata = Some (kv :: items)).
Proof.
  intros Hdup. unfold ChromaStore.add_document.
  destruct (ChromaStore._is_duplicate self text ChromaStore.THRESHOLD) as [l [b|e]];
    simpl in Hdup; [|done].
  injection Hdup as ->. split; [done|].
  intros [[|kv items]|] doc_id; simpl; [done | | done].
  intros _. by exists kv, items.
Qed.

Local Ltac pick_document :=
  lazymatch goal with
  | |- context [ChromaStore.add_document _ _ ?text (Some (?kv :: ?metadata))] =>
      exists text, kv, metadata; cbv zeta
  end.

(** When [store_user_confirmation] writes, it makes one call of
    [add_document], with a non-empty metadata; it has no handler, logs what
    that call logs and ends as that call ends. *)
Lemma store_user_confirmation_add_document (self : @ThinkOrchestrator.t C)
    (store : C) (fresh : ChromaStore.Fresh) (suggestion : SuggestionSchema.t)
    (ctx : ContextPacket.t) (accepted : bool) :
  ThinkOrchestrator.memory self = Some store →
  accepted = false ∨ is_Some (SuggestionSchema.action suggestion) →
  ∃ text kv metadata,
    let r := ChromaStore.add_document store fresh text (Some (kv :: metadata)) in
    result (ThinkOrchestrator.store_user_confirmation self fresh suggestion ctx accepted).1
    = match result r.1 with Return _ => Return tt | Raise e => Raise e end
    ∧ logged (ThinkOrchestrator.store_user_confirmation self fresh suggestion ctx accepted).1
      = logged r.1.
Proof.
  intros Hmem Hcase. unfold ThinkOrchestrator.store_user_confirmation.
  rewrite Hmem.
  destruct accepted.
  - destruct Hcase as [|[action Haction]]; [done|]. rewrite Haction.
    pick_document.
    destruct (ChromaStore.add_document _ _ _ _) as [[l [a|e]] store']; simpl;
      by rewrite ?app_nil_r.
  - pick_document.
    destruct (ChromaStore.add_document _ _ _ _) as [[l [a|e]] store']; simpl;
      by rewrite ?app_nil_r.
Qed.

(** C8, amended. A failure of a memory write is not absorbed. For every
    text and every non-empty metadata, [add_document] raises [e] exactly
    when [count] raises [e] in the duplicate check, or the check answers no
    and the collection refuses the document with [e]; in the first case
    nothing is logged, in the second the last record of the log is the
    error of the write. And [store_user_confirmation] has no handler: it
    logs what its call of [add_document] logs and raises what it raises. *)
Theorem write_failure_is_logged_and_raised (self : @ThinkOrchestrator.t C)
    (store : C) (fresh : ChromaStore.Fresh) (suggestion : SuggestionSchema.t)
    (ctx : ContextPacket.t) (accepted : bool) :
  ThinkOrchestrator.memory self = Some store →
  accepted = false ∨ is_Some (SuggestionSchema.action suggestion) →
  (∀ text kv metadata embedding,
     result (ChromaStore.get_ollama_embedding text) = Return embedding →
     let written := (ChromaStore.add_document store fresh text (Some (kv :: metadata))).1 in
     let duplicate := ChromaStore._is_duplicate store text ChromaStore.THRESHOLD in
     let safe_meta :=
       ChromaStore.dict_set "timestamp" (PStr (ChromaStore.now_isoformat fresh))
         (ChromaStore.sanitize (kv :: metadata)) in
     let added :=
       (ChromaStore.add store text safe_meta embedding (ChromaStore.uuid4 fresh)).1 in
     (∀ e, result written = Raise e ↔
           ChromaStore.count store = Raise e
           ∨ (result duplicate = Return false ∧ added = Raise e))
     ∧ (∀ e, ChromaStore.count store = Raise e → logged written = [])
     ∧ (∀ e, result duplicate = Return false → added = Raise e →
             last (logged written)
             = Some (LogRecord ERROR "Chroma add_document error: {e}")))
  ∧ ∃ text kv metadata,
      let written := (ChromaStore.add_document store fresh text (Some (kv :: metadata))).1 in
      let recorded :=
        (ThinkOrchestrator.store_user_confirmation self fresh suggestion ctx accepted).1 in
      logged recorded = logged written
      ∧ ∀ e, result recorded = Raise e ↔ result written = Raise e.
Proof.
  intros Hmem Hcase. split.
  - intros text kv metadata embedding Hemb. cbv zeta.
    destruct (ChromaStore.count store) as [n|e0] eqn:Hcount.
    + destruct (is_duplicate_returns store text ChromaStore.THRESHOLD n Hcount)
        as [[|] Hdup].
      * (* a duplicate: the call returns *)
        assert (result (ChromaStore.add_document store fresh text
                          (Some (kv :: metadata))).1 = Return "DUPLICATE_SKIPPED") as Hskip.
        { unfold ChromaStore.add_document.
          by destruct (ChromaStore._is_duplicate store text ChromaStore.THRESHOLD)
            as [l [[|]|e]]. }
        rewrite Hdup, Hskip. split; [|split]; try done.
        intros e. split; [done | by intros [? | [? _]]].
      * destruct (add_document_not_duplicate store fresh text kv metadata embedding
                    Hdup Hemb) as [_ Hend].
        cbv zeta in Hend. rewrite Hdup.
        destruct (ChromaStore.add store text _ embedding (ChromaStore.uuid4 fresh)).1
          as [[]|e'] eqn:Hadd; destruct Hend as [Hres Hlog].
        -- rewrite Hres. split; [|split]; try done.
           intros e. split; [done | by intros [? | [_ ?]]].
        -- rewrite Hres, Hlog. split; [|split]; try done.
           ++ intros e. split; [intros [= ->]; by right | by intros [? | [_ [= ->]]]].
           ++ intros e _ [= ->]. by rewrite app_assoc, last_snoc.
    + assert (ChromaStore.add_document store fresh text (Some (kv :: metadata))
              = (([], Raise e0), store)) as ->.
      { unfold ChromaStore.add_document.
        by rewrite (is_duplicate_count_raises store text _ e0 Hcount). }
      rewrite (is_duplicate_count_raises store text _ e0 Hcount). simpl.
      split; [|split]; try done.
      intros e. split; [intros [= ->]; by left | by intros [[= ->] | [? _]]].
  - destruct (store_user_confirmation_add_document self store fresh suggestion ctx
                accepted Hmem Hcase) as (text & kv & metadata & Hres & Hlog).
    exists text, kv, metadata. cbv zeta in *. split; [done|].
    intros e. rewrite Hres.
    destruct (result (ChromaStore.add_document store fresh text _).1);
      [split; discriminate | split; by intros [= ->]].
Qed.

End StoreFacts.

Lemma add_document_needs_metadata_witness :
  let store := Demo.mkFake [] None in
  (result (ChromaStore.add_document store Demo.fresh "hello" None).1 = Raise TypeError
   ∧ (ChromaStore.add_document store Demo.fresh "hello" None).2 = store) ∧
  (∀ metadata doc_id,
     result (ChromaStore.add_document store Demo.fresh "hello" metadata).1 = Return doc_id →
     ∃ kv items, metadata = Some (kv :: items)).
Proof.
  apply (add_document_needs_metadata (Demo.mkFake [] None) Demo.fresh "hello").
  reflexivity.
Defined.

(** C8, as the specification words it, fails: on a store whose [add]
    raises, neither [add_document] nor [store_user_confirmation] returns;
    both end with the exception of the store. *)
Lemma write_failure_reaches_caller :
  let self := ThinkOrchestrator.mk (Demo.answering Demo.dim_light) (Some Demo.broken_store)
                Demo.dummy_device_capabilities (ProactivityBudget.mk Demo.ten_minutes None) in
  let e := ExternalError "chroma add failed" in
  (∀ text meta emb doc_id,
     (ChromaStore.add Demo.broken_store text meta emb doc_id).1 = Raise e) ∧
  result (ChromaStore.add_document Demo.broken_store Demo.fresh "fact"
            (Some [("type", PStr "fact")])).1 = Raise e ∧
  result (ThinkOrchestrator.store_user_confirmation self Demo.fresh Demo.overheat
            Demo.ctx false).1 = Raise e ∧
  result (ThinkOrchestrator.store_user_confirmation self Demo.fresh Demo.overheat
            Demo.ctx true).1 = Raise e.
Proof. cbv zeta. split; [done|]. repeat split; vm_compute; reflexivity. Qed.

Lemma write_failure_is_logged_and_raised_witness :
  let self := ThinkOrchestrator.mk (Demo.answering Demo.dim_light) (Some Demo.broken_store)
                Demo.dummy_device_capabilities (ProactivityBudget.mk Demo.ten_minutes None) in
  let failure := ExternalError "chroma add failed" in
  let written :=
    (ChromaStore.add_document Demo.broken_store Demo.fresh "fact"
       (Some [("type", PStr "fact")])).1 in
  (result written = Raise failure ↔
   ChromaStore.count Demo.broken_store = Raise failure
   ∨ (result (ChromaStore._is_duplicate Demo.broken_store "fact" ChromaStore.THRESHOLD)
      = Return false
      ∧ (ChromaStore.add Demo.broken_store "fact"
           (ChromaStore.dict_set "timestamp" (PStr (ChromaStore.now_isoformat Demo.fresh))
              (ChromaStore.sanitize [("type", PStr "fact")]))
           (PList [PFloat (Fin 0)]) (ChromaStore.uuid4 Demo.fresh)).1 = Raise failure))
  ∧ last (logged written) = Some (LogRecord ERROR "Chroma add_document error: {e}")
  ∧ ∃ text kv metadata,
      let written :=
        (ChromaStore.add_document Demo.broken_store Demo.fresh text
           (Some (kv :: metadata))).1 in
      let recorded :=
        (ThinkOrchestrator.store_user_confirmation self Demo.fresh Demo.overheat
           Demo.ctx false).1 in
      logged recorded = logged written
      ∧ ∀ e, result recorded = Raise e ↔ result written = Raise e.
Proof.
  cbv zeta.
  destruct (write_failure_is_logged_and_raised
              (ThinkOrchestrator.mk (Demo.answering Demo.dim_light)
                 (Some Demo.broken_store) Demo.dummy_device_capabilities
                 (ProactivityBudget.mk Demo.ten_minutes None))
              Demo.broken_store Demo.fresh Demo.overheat Demo.ctx false
              eq_refl (or_introl eq_refl)) as [Hwritten Hrecorded].
  destruct (Hwritten "fact" ("type", PStr "fact") [] (PList [PFloat (Fin 0)]) eq_refl)
    as (Hraise & _ & Hlogged).
  split; [exact (Hraise (ExternalError "chroma add failed"))|].
  split; [exact (Hlogged (ExternalError "chroma add failed") eq_refl eq_refl)|].
  exact Hrecorded.
Defined.

(** ** The pipeline *)

Section PipelineFacts.
Context {C : Type} `{!ChromaStore.Collection C} `{!ChromaStore.Serializer}.

Lemma enrich_devices_returns (caps : gmap string dict) (devices : list DeviceState.t) :
  ∃ devices', result (ThinkOrchestrator.enrich_devices caps devices) = Return devices'.
Proof.
  induction devices as [|d devices [devices' IH]]; simpl; [by eexists|].
  destruct (caps !! DeviceState.id d); eexists;
    repeat (rewrite result_bind; simpl); rewrite IH; reflexivity.
Qed.

Lemma get_relevant_info_returns (store : C) (q : string) (n_results n : nat) :
  ChromaStore.count store = Return n →
  ∃ text, result (ChromaStore.get_relevant_info store q n_results) = Return text.
Proof.
  intros Hcount. unfold ChromaStore.get_relevant_info. rewrite result_bind.
  unfold ChromaStore.call at 1. rewrite Hcount. cbn [result snd].
  destruct (Nat.eqb n 0); [by eexists|].
  apply try_except_returns. intros e. by eexists.
Qed.

(** When the pass-2 chain raises, whatever the exception, the client
    answers its fallback mapping, and the suggestion built from it takes
    the default confidence of the schema. *)
Lemma pass2_step_chain_raises (self : @ThinkOrchestrator.t C) (ctx : ContextPacket.t)
    (pass1_output : string) (e : exn) :
  LangchainLLMClient.pass2_chain (ThinkOrchestrator.llm_client self) pass1_output ctx
  = Raise e →
  ThinkOrchestrator.pass2_step self ctx pass1_output
  = ([LogRecord ERROR "Failed to parse LLM Pass 2 output: %s."],
     Return (SuggestionSchema.mk false None (Some "llm_parse_failed") None (Some 0.5%Q))).
Proof.
  intros Hchain.
  unfold ThinkOrchestrator.pass2_step, LangchainLLMClient.pass2_structured,
    ChromaStore.call.
  by rewrite Hchain.
Qed.

(** The same through the whole of [process_context], on a memory whose
    [count] answers: the final suggestion is the one of the fallback
    mapping, and the budget is as before. *)
Lemma process_context_chain_raises (self : @ThinkOrchestrator.t C) (store : C)
    (n : nat) (now : Z) (ctx : ContextPacket.t) (e : exn) :
  ThinkOrchestrator.memory self = Some store →
  ChromaStore.count store = Return n →
  (∀ summary ctx',
     LangchainLLMClient.pass2_chain (ThinkOrchestrator.llm_client self) summary ctx'
     = Raise e) →
  result (ThinkOrchestrator.process_context self now ctx)
  = Return (SuggestionSchema.mk false None (Some "llm_parse_failed") None (Some 0.5%Q),
            ThinkOrchestrator.proactivity_budget self).
Proof.
  intros Hmem Hcount Hchain.
  destruct (enrich_devices_returns (ThinkOrchestrator.device_capabilities self)
              (ContextPacket.devices ctx)) as [devices' Hdev].
  assert (∃ ctx', result (ThinkOrchestrator.before_safety self ctx)
                    = Return (ctx', SuggestionSchema.mk false None
                                      (Some "llm_parse_failed") None (Some 0.5%Q)))
    as [ctx' Hbefore]; last first.
  { unfold ThinkOrchestrator.process_context, ThinkOrchestrator.before_budget.
    eapply result_bind_Return;
      [eapply result_bind_Return; [exact Hbefore | reflexivity] | reflexivity]. }
  eexists. unfold ThinkOrchestrator.before_safety.
  eapply result_bind_Return; [reflexivity|]. cbv beta.
  eapply result_bind_Return.
  { unfold ThinkOrchestrator._enrich_context_with_capabilities.
    eapply result_bind_Return; [exact Hdev | reflexivity]. }
  cbv beta zeta. rewrite Hmem.
  match goal with
  | |- context [ChromaStore.get_relevant_info store ?q ?k] =>
      destruct (get_relevant_info_returns store q k n Hcount) as [text Htext]
  end.
  eapply result_bind_Return; [exact Htext|]. cbv beta.
  match goal with
  | |- context [try_except ?m ?h] =>
      destruct (try_except_returns m h) as [summary Hsummary]; [by eexists|]
  end.
  eapply result_bind_Return; [exact Hsummary|]. cbv beta.
  eapply result_bind_Return;
    [by rewrite (pass2_step_chain_raises _ _ _ e) by apply Hchain | reflexivity].
Qed.

(** C6. When the policy validator rejects the action of the suggestion
    that pass 2 produced, [process_context] returns that suggestion with
    [should_suggest] false and the reason overwritten; its action, its text
    and its confidence are the ones pass 2 produced. *)
Theorem safety_rejection_keeps_action (self : @ThinkOrchestrator.t C) (now : Z)
    (ctx ctx' : ContextPacket.t) (suggestion : SuggestionSchema.t)
    (action : ActionCommand.t) :
  result (ThinkOrchestrator.before_safety self ctx) = Return (ctx', suggestion) →
  SuggestionSchema.action suggestion = Some action →
  result (SafetyChecker.is_action_safe action (ContextPacket.devices ctx')) = Return false →
  ∃ final,
    result (ThinkOrchestrator.process_context self now ctx)
    = Return (final, ThinkOrchestrator.proactivity_budget self) ∧
    SuggestionSchema.should_suggest final = false ∧
    SuggestionSchema.reason final = Some "Action failed safety check." ∧
    SuggestionSchema.action final = SuggestionSchema.action suggestion ∧
    SuggestionSchema.suggestion_text final = SuggestionSchema.suggestion_text suggestion ∧
    SuggestionSchema.confidence final = SuggestionSchema.confidence suggestion.
Proof.
  intros Hbefore Haction Hunsafe.
  exists (SuggestionSchema.mk false (SuggestionSchema.suggestion_text suggestion)
            (Some "Action failed safety check.") (SuggestionSchema.action suggestion)
            (SuggestionSchema.confidence suggestion)).
  split; [|done].
  unfold ThinkOrchestrator.process_context, ThinkOrchestrator.before_budget.
  eapply result_bind_Return.
  - eapply result_bind_Return; [exact Hbefore|]. simpl.
    unfold ThinkOrchestrator.safety_step. rewrite Haction.
    eapply result_bind_Return; [exact Hunsafe | reflexivity].
  - simpl. by rewrite Haction.
Qed.

(** C7. When the suggestion that leaves the safety check has
    [should_suggest] false, [process_context] ends without calling
    [allow()]: it logs what the earlier steps logged and nothing more, and
    returns that suggestion and the budget it was given, whatever that
    budget and whatever the time of the call. *)
Theorem budget_untouched_when_denied (self : @ThinkOrchestrator.t C)
    (ctx : ContextPacket.t) (suggestion : SuggestionSchema.t) :
  result (ThinkOrchestrator.before_budget self ctx) = Return suggestion →
  SuggestionSchema.should_suggest suggestion = false →
  ∀ (now : Z) (budget : ProactivityBudget.t),
    ThinkOrchestrator.process_context
      (ThinkOrchestrator.mk (ThinkOrchestrator.llm_client self)
         (ThinkOrchestrator.memory self)
         (ThinkOrchestrator.device_capabilities self) budget) now ctx
    = (logged (ThinkOrchestrator.before_budget self ctx), Return (suggestion, budget)).
Proof.
  intros Hbefore Hdenied now budget.
  unfold ThinkOrchestrator.process_context.
  change (ThinkOrchestrator.before_budget (ThinkOrchestrator.mk _ _ _ budget) ctx)
    with (ThinkOrchestrator.before_budget self ctx).
  destruct (ThinkOrchestrator.before_budget self ctx) as [l [s|e]];
    simpl in Hbefore; [|done].
  injection Hbefore as ->. cbn.
  unfold ThinkOrchestrator.budget_step. rewrite Hdenied. cbn.
  by rewrite app_nil_r.
Qed.

(** Conversely, a suggestion that is still to be made goes through
    [allow()], and the budget of the orchestrator becomes the one that
    call leaves. *)
Lemma budget_consulted_when_suggesting (self : @ThinkOrchestrator.t C)
    (now : Z) (ctx : ContextPacket.t) (suggestion : SuggestionSchema.t)
    (allowed : bool) (budget' : ProactivityBudget.t) :
  result (ThinkOrchestrator.before_budget self ctx) = Return suggestion →
  SuggestionSchema.should_suggest suggestion = true →
  result (ProactivityBudget.allow now (ThinkOrchestrator.proactivity_budget self))
  = Return (allowed, budget') →
  result (ThinkOrchestrator.process_context self now ctx)
  = Return (if allowed then suggestion
            else SuggestionSchema.mk false
                   (SuggestionSchema.suggestion_text suggestion)
                   (Some "Proactivity budget exhausted.")
                   (SuggestionSchema.action suggestion)
                   (SuggestionSchema.confidence suggestion),
            budget').
Proof.
  intros Hbefore Hsuggest Hallow. unfold ThinkOrchestrator.process_context.
  eapply result_bind_Return; [exact Hbefore|].
  unfold ThinkOrchestrator.budget_step. rewrite Hsuggest.
  eapply result_bind_Return; [exact Hallow|]. by destruct allowed.
Qed.

End PipelineFacts.

(** The two end-to-end scenarios of the specification. With a cooldown of
    ten minutes, a safe suggestion is made on the first call and held back
    one minute later; a request for 90 degrees on a device that takes 16 to
    30 is held back by the safety check, whatever the budget. *)
Example cooldown_scenario :
  let first :=
    ThinkOrchestrator.process_context
      (Demo.orchestrator (Demo.answering Demo.dim_light)
         (ProactivityBudget.mk Demo.ten_minutes None)) 0 Demo.ctx in
  let second :=
    ThinkOrchestrator.process_context
      (Demo.orchestrator (Demo.answering Demo.dim_light)
         (ProactivityBudget.mk Demo.ten_minutes (Some 0%Z))) 60000000 Demo.ctx in
  result first
    = Return (Demo.dim_light, ProactivityBudget.mk Demo.ten_minutes (Some 0%Z)) ∧
  result second
    = Return (SuggestionSchema.mk false (Some "Dim the living light?")
                (Some "Proactivity budget exhausted.")
                (SuggestionSchema.action Demo.dim_light) (Some 0.9%Q),
              ProactivityBudget.mk Demo.ten_minutes (Some 0%Z)).
Proof. split; vm_compute; reflexivity. Qed.

Example overheat_scenario :
  result (ThinkOrchestrator.process_context
            (Demo.orchestrator (Demo.answering Demo.overheat)
               (ProactivityBudget.mk Demo.ten_minutes None)) 0 Demo.ctx)
  = Return (SuggestionSchema.mk false (Some "Heat the room?")
              (Some "Action failed safety check.")
              (SuggestionSchema.action Demo.overheat) (Some 0.8%Q),
            ProactivityBudget.mk Demo.ten_minutes None).
Proof. vm_compute. reflexivity. Qed.

(** C5 does not hold of the code. Whether the pass-2 chain fails in its
    parser or in the call itself, the client swallows the exception and
    answers the same fallback mapping, so the handlers of the orchestrator
    never run: the final suggestion has [should_suggest] false, the one
    reason "llm_parse_failed" in both cases, and the schema's default
    confidence 0.5, not 0.0. *)
Theorem pass2_failure_keeps_default_confidence :
  let budget := ProactivityBudget.mk Demo.ten_minutes None in
  let parse_failure := Demo.orchestrator (Demo.failing OutputParserException) budget in
  let call_failure :=
    Demo.orchestrator (Demo.failing (ExternalError "connection refused")) budget in
  let denied :=
    SuggestionSchema.mk false None (Some "llm_parse_failed") None (Some 0.5%Q) in
  result (ThinkOrchestrator.process_context parse_failure 0 Demo.ctx)
    = Return (denied, budget) ∧
  result (ThinkOrchestrator.process_context call_failure 0 Demo.ctx)
    = Return (denied, budget) ∧
  ¬ (0.5 == 0)%Q.
Proof.
  cbv zeta. split; [|split].
  - by apply (process_context_chain_raises
                (Demo.orchestrator (Demo.failing OutputParserException) _)
                (Demo.mkFake [] None) 0%nat 0 Demo.ctx OutputParserException).
  - by apply (process_context_chain_raises
                (Demo.orchestrator (Demo.failing (ExternalError "connection refused")) _)
                (Demo.mkFake [] None) 0%nat 0 Demo.ctx
                (ExternalError "connection refused")).
  - discriminate.
Qed.

Lemma safety_rejection_keeps_action_witness :
  ∃ final,
    result (ThinkOrchestrator.process_context
              (Demo.orchestrator (Demo.answering Demo.overheat)
                 (ProactivityBudget.mk Demo.ten_minutes None)) 0 Demo.ctx)
    = Return (final, ProactivityBudget.mk Demo.ten_minutes None) ∧
    SuggestionSchema.should_suggest final = false ∧
    SuggestionSchema.reason final = Some "Action failed safety check." ∧
    SuggestionSchema.action final = SuggestionSchema.action Demo.overheat ∧
    SuggestionSchema.suggestion_text final = SuggestionSchema.suggestion_text Demo.overheat ∧
    SuggestionSchema.confidence final = SuggestionSchema.confidence Demo.overheat.
Proof.
  eapply (safety_rejection_keeps_action
            (Demo.orchestrator (Demo.answering Demo.overheat)
               (ProactivityBudget.mk Demo.ten_minutes None)) 0 Demo.ctx).
  - vm_compute. reflexivity.
  - reflexivity.
  - vm_compute. reflexivity.
Defined.

Lemma budget_untouched_when_denied_witness :
  let budget := ProactivityBudget.mk Demo.ten_minutes (Some 0%Z) in
  let self := Demo.orchestrator (Demo.answering Demo.overheat) budget in
  ThinkOrchestrator.process_context self 600000000 Demo.ctx
  = (logged (ThinkOrchestrator.before_budget self Demo.ctx),
     Return (SuggestionSchema.mk false (Some "Heat the room?")
               (Some "Action failed safety check.")
               (SuggestionSchema.action Demo.overheat) (Some 0.8%Q), budget)).
Proof.
  exact (budget_untouched_when_denied
           (Demo.orchestrator (Demo.answering Demo.overheat)
              (ProactivityBudget.mk Demo.ten_minutes (Some 0%Z))) Demo.ctx
           (SuggestionSchema.mk false (Some "Heat the room?")
              (Some "Action failed safety check.")
              (SuggestionSchema.action Demo.overheat) (Some 0.8%Q))
           eq_refl eq_refl 600000000
           (ProactivityBudget.mk Demo.ten_minutes (Some 0%Z))).
Defined.

(** * Further properties of the code *)

(** ** The policy validator, clause by clause *)

Lemma logged_bind {A B} (m : M A) (k : A → M B) :
  logged (m ≫= k) = match result m with
                    | Return a => logged m ++ logged (k a)
                    | Raise e => logged m
                    end.
Proof.
  destruct m as [l [a|e]]; cbn; [|done].
  by destruct (k a).
Qed.

(** The validator reads the device list only through the entry of the
    map for the id of the action. *)
Lemma is_action_safe_dev_map (action : ActionCommand.t)
    (devices devices' : list DeviceState.t) :
  SafetyChecker.dev_map devices !! ActionCommand.device_id action
  = SafetyChecker.dev_map devices' !! ActionCommand.device_id action →
  SafetyChecker.is_action_safe action devices
  = SafetyChecker.is_action_safe action devices'.
Proof. intros Hsame. unfold SafetyChecker.is_action_safe. by rewrite Hsame. Qed.

(** X2. An action on a device id that no device state carries is answered
    unsafe, with the warning about the unknown device and nothing else. *)
Theorem unknown_device_is_unsafe (action : ActionCommand.t)
    (devices : list DeviceState.t) :
  (∀ d, d ∈ devices → DeviceState.id d ≠ ActionCommand.device_id action) →
  SafetyChecker.is_action_safe action devices
  = ([LogRecord WARNING "SafetyCheck: Unknown device %s"], Return false).
Proof.
  intros Hnone. unfold SafetyChecker.is_action_safe.
  destruct (SafetyChecker.dev_map devices !! ActionCommand.device_id action)
    as [dev|] eqn:Hdev; [|done].
  apply dev_map_lookup_Some in Hdev as [Hin Hid]. by destruct (Hnone dev Hin).
Qed.

Lemma unknown_device_is_unsafe_witness :
  SafetyChecker.is_action_safe (ActionCommand.mk "toaster_1" "on" []) Demo.enriched_devices
  = ([LogRecord WARNING "SafetyCheck: Unknown device %s"], Return false).
Proof.
  apply (unknown_device_is_unsafe (ActionCommand.mk "toaster_1" "on" [])
           Demo.enriched_devices).
  intros d Hin. unfold Demo.enriched_devices in Hin.
  repeat (apply elem_of_cons in Hin as [-> | Hin]; [discriminate|]).
  by apply elem_of_nil in Hin.
Defined.

(** X3. A device whose capabilities are missing or empty takes no action:
    whatever the command and the parameters, the answer is unsafe. *)
Theorem no_capabilities_is_unsafe (action : ActionCommand.t)
    (devices : list DeviceState.t) (dev : DeviceState.t) :
  SafetyChecker.dev_map devices !! ActionCommand.device_id action = Some dev →
  DeviceState.capabilities dev = None ∨ DeviceState.capabilities dev = Some [] →
  result (SafetyChecker.is_action_safe action devices) = Return false.
Proof.
  intros Hdev Hcaps. unfold SafetyChecker.is_action_safe. rewrite Hdev.
  destruct (existsb _ _); [done|]. by destruct Hcaps as [-> | ->].
Qed.

Lemma no_capabilities_is_unsafe_witness :
  result (SafetyChecker.is_action_safe
            (ActionCommand.mk "smart_light_1" "on" []) [Fixtures.stale_light])
  = Return false.
Proof.
  apply (no_capabilities_is_unsafe (ActionCommand.mk "smart_light_1" "on" [])
           [Fixtures.stale_light] Fixtures.stale_light).
  - vm_compute. reflexivity.
  - right. reflexivity.
Defined.

(** X4. A supplied parameter that the capability spec does not declare is
    not checked: the validator notes it at debug level and goes on, and the
    answer for the action is the one it would get without that parameter. *)
Theorem undeclared_parameter_is_ignored (devices : list DeviceState.t)
    (dev : DeviceState.t) (caps parameters : dict) (device_id command name : string)
    (before after : dict) (v : pyval) :
  SafetyChecker.dev_map devices !! device_id = Some dev →
  DeviceState.capabilities dev = Some caps →
  SafetyChecker.get_default caps "parameters" (PDict []) = PDict parameters →
  dict_get name parameters = None →
  SafetyChecker.check_param (PDict parameters) device_id name v
  = ([LogRecord DEBUG
        "SafetyCheck: Param '%s' not in capability spec for %s. Skipping bounds check."],
     Return None) ∧
  result (SafetyChecker.is_action_safe
            (ActionCommand.mk device_id command (before ++ (name, v) :: after)) devices)
  = result (SafetyChecker.is_action_safe
              (ActionCommand.mk device_id command (before ++ after)) devices).
Proof.
  intros Hdev Hcaps Hparams Hundeclared.
  assert (SafetyChecker.check_param (PDict parameters) device_id name v
          = ([LogRecord DEBUG
                "SafetyCheck: Param '%s' not in capability spec for %s. Skipping bounds check."],
             Return None)) as Hturn.
  { unfold SafetyChecker.check_param, py_in. rewrite Hundeclared.
    by rewrite bool_decide_eq_false_2 by (by intros [? ?]). }
  split; [exact Hturn|].
  unfold SafetyChecker.is_action_safe.
  cbn [ActionCommand.device_id ActionCommand.command ActionCommand.params].
  rewrite Hdev. destruct (existsb _ _); [done|]. rewrite Hcaps.
  destruct caps as [|entry caps]; [done|].
  rewrite !result_bind.
  destruct (result (py_in _ _)) as [[|]|e]; simpl; [|done|done].
  rewrite Hparams. apply check_params_skip. by rewrite Hturn.
Qed.

Lemma undeclared_parameter_is_ignored_witness :
  SafetyChecker.check_param (PDict [("brightness", PList [PInt 0; PInt 100]);
                                    ("color_temperature", PList [PInt 2700; PInt 6500])])
    "smart_light_1" "hue" (PInt 999)
  = ([LogRecord DEBUG
        "SafetyCheck: Param '%s' not in capability spec for %s. Skipping bounds check."],
     Return None) ∧
  result (SafetyChecker.is_action_safe
            (ActionCommand.mk "smart_light_1" "set_brightness"
               ([("brightness", PInt 80)] ++ ("hue", PInt 999) :: []))
            Demo.enriched_devices)
  = result (SafetyChecker.is_action_safe
              (ActionCommand.mk "smart_light_1" "set_brightness"
                 ([("brightness", PInt 80)] ++ []))
              Demo.enriched_devices).
Proof.
  apply (undeclared_parameter_is_ignored Demo.enriched_devices
           (Demo.living_light (Some Demo.light_caps)) Demo.light_caps
           [("brightness", PList [PInt 0; PInt 100]);
            ("color_temperature", PList [PInt 2700; PInt 6500])]
           "smart_light_1" "set_brightness" "hue" [("brightness", PInt 80)] []
           (PInt 999)).
  - vm_compute. reflexivity.
  - reflexivity.
  - reflexivity.
  - reflexivity.
Defined.

(** X5. A two-element spec that starts with a number and ends with
    something else makes the validator raise instead of answering: on a
    supplied number that is not below the first element, the comparison
    with the second raises [TypeError]. *)
Theorem open_range_raises (devices : list DeviceState.t) (dev : DeviceState.t)
    (entry : string * pyval) (caps parameters : dict) (functions : list pyval)
    (device_id command name : string) (first second v : pyval) (a x : pyfloat)
    (after : dict) :
  SafetyChecker.dev_map devices !! device_id = Some dev →
  existsb (fun bad => str_contains bad device_id) SafetyChecker.SAFE_DEVICE_BLACKLIST
  = false →
  DeviceState.capabilities dev = Some (entry :: caps) →
  SafetyChecker.get_default (entry :: caps) "functions" (PList []) = PList functions →
  PStr command ∈ functions →
  SafetyChecker.get_default (entry :: caps) "parameters" (PDict []) = PDict parameters →
  dict_get name parameters = Some (PList [first; second]) →
  as_num first = Some a → as_num second = None →
  as_num v = Some x → num_le a x = true →
  result (SafetyChecker.is_action_safe
            (ActionCommand.mk device_id command ((name, v) :: after)) devices)
  = Raise TypeError.
Proof.
  intros Hdev Hclean Hcaps Hfun Hcmd Hpar Hspec Ha Hb Hx Hle.
  unfold SafetyChecker.is_action_safe.
  cbn [ActionCommand.device_id ActionCommand.command ActionCommand.params].
  rewrite Hdev, Hclean, Hcaps, Hfun, Hpar.
  apply existsb_py_eq_PStr in Hcmd.
  rewrite result_bind. cbn [py_in mret M_ret result snd]. rewrite Hcmd. cbn [negb].
  rewrite check_params_cons.
  unfold SafetyChecker.check_param, py_in, py_getitem. rewrite Hspec.
  rewrite bool_decide_eq_true_2 by (by eexists).
  unfold is_number, py_le. cbn. rewrite Ha, Hx, Hb. cbn. by rewrite Hle.
Qed.

Lemma open_range_raises_witness :
  result (SafetyChecker.is_action_safe
            (ActionCommand.mk "heater_1" "set_temperature" [("temperature", PInt 20)])
            [Fixtures.open_range_device])
  = Raise TypeError.
Proof.
  apply (open_range_raises [Fixtures.open_range_device] Fixtures.open_range_device
           ("functions", PList [PStr "set_temperature"])
           [("parameters", PDict [("temperature", PList [PInt 16; PStr "max"])])]
           [("temperature", PList [PInt 16; PStr "max"])]
           [PStr "set_temperature"]
           "heater_1" "set_temperature" "temperature" (PInt 16) (PStr "max") (PInt 20)
           (Fin (inject_Z 16)) (Fin (inject_Z 20)) []).
  - vm_compute. reflexivity.
  - reflexivity.
  - reflexivity.
  - reflexivity.
  - apply list_elem_of_here.
  - reflexivity.
  - reflexivity.
  - reflexivity.
  - reflexivity.
  - reflexivity.
  - reflexivity.
Defined.

(** X6. When several device states carry the id of the action, the last
    one decides: the validator answers as if it were the only one. *)
Theorem last_device_state_decides (action : ActionCommand.t)
    (devices : list DeviceState.t) (d : DeviceState.t) :
  DeviceState.id d = ActionCommand.device_id action →
  SafetyChecker.is_action_safe action (devices ++ [d])
  = SafetyChecker.is_action_safe action [d].
Proof.
  intros Hid. apply is_action_safe_dev_map.
  unfold SafetyChecker.dev_map. rewrite foldl_app. simpl.
  by rewrite <- Hid, !lookup_insert_eq.
Qed.

Lemma last_device_state_decides_witness :
  SafetyChecker.is_action_safe (ActionCommand.mk "smart_light_1" "on" [])
    ([Fixtures.stale_light] ++ [Demo.living_light (Some Demo.light_caps)])
  = SafetyChecker.is_action_safe (ActionCommand.mk "smart_light_1" "on" [])
      [Demo.living_light (Some Demo.light_caps)].
Proof.
  apply (last_device_state_decides (ActionCommand.mk "smart_light_1" "on" [])
           [Fixtures.stale_light] (Demo.living_light (Some Demo.light_caps))).
  reflexivity.
Defined.

Lemma dev_map_lookup_unique (devices : list DeviceState.t) (i : string)
    (d : DeviceState.t) :
  NoDup (DeviceState.id <$> devices) →
  SafetyChecker.dev_map devices !! i = Some d ↔ d ∈ devices ∧ DeviceState.id d = i.
Proof.
  intros Hnodup. split; [apply dev_map_lookup_Some|].
  intros [Hin <-]. by apply dev_map_unique_ids.
Qed.

(** X7. With unique ids the device states form a set: listing them in
    another order changes neither the answer of the validator nor what it
    logs. *)
Theorem device_order_is_irrelevant (action : ActionCommand.t)
    (devices devices' : list DeviceState.t) :
  NoDup (DeviceState.id <$> devices) →
  devices ≡ₚ devices' →
  SafetyChecker.is_action_safe action devices
  = SafetyChecker.is_action_safe action devices'.
Proof.
  intros Hnodup Hperm. apply is_action_safe_dev_map.
  assert (NoDup (DeviceState.id <$> devices')) as Hnodup' by by rewrite <- Hperm.
  apply option_eq. intros d.
  rewrite !dev_map_lookup_unique by done. by rewrite Hperm.
Qed.

Lemma device_order_is_irrelevant_witness :
  SafetyChecker.is_action_safe (ActionCommand.mk "smart_ac_1" "eco_mode" [])
    Demo.enriched_devices
  = SafetyChecker.is_action_safe (ActionCommand.mk "smart_ac_1" "eco_mode" [])
      (reverse Demo.enriched_devices).
Proof.
  apply (device_order_is_irrelevant (ActionCommand.mk "smart_ac_1" "eco_mode" [])
           Demo.enriched_devices (reverse Demo.enriched_devices)).
  - apply (bool_decide_unpack _). vm_compute. exact I.
  - symmetry. apply reverse_Permutation.
Defined.


(** A turn of the loop that returns, returns false, and has logged a
    warning. *)
Lemma check_param_return_warns (available_params : pyval) (device_id name : string)
    (v : pyval) (b : bool) :
  result (SafetyChecker.check_param available_params device_id name v)
  = Return (Some b) →
  b = false ∧
  ∃ r, r ∈ logged (SafetyChecker.check_param available_params device_id name v)
       ∧ levelno r = WARNING.
Proof.
  unfold SafetyChecker.check_param, py_in, py_getitem, py_le, is_number.
  destruct available_params as [| | | |s|l|d]; try discriminate.
  - destruct (str_contains name s); discriminate.
  - destruct (existsb _ l); discriminate.
  - destruct (dict_get name d) as [spec|] eqn:Hspec.
    2: { rewrite bool_decide_eq_false_2 by (by intros [? ?]). discriminate. }
    rewrite bool_decide_eq_true_2 by (by eexists).
    destruct spec as [| | | |token|[|first rest]|]; try discriminate.
    + cbn. destruct (String.eqb token "HH:MM"); [|discriminate].
      destruct (str_matches_HH_MM v); cbn; [discriminate|].
      intros [= <-]. split; [done|]. eexists. split; [apply list_elem_of_here | done].
    + cbn -[existsb]. destruct (as_num first) as [a|].
      * destruct rest as [|second [|third rest]]; try discriminate.
        destruct (as_num v) as [x|]; cbn.
        -- destruct (num_le a x); cbn.
           ++ destruct (as_num second) as [c|]; cbn; [|discriminate].
              destruct (num_le x c); cbn; [discriminate|].
              intros [= <-]. split; [done|].
              eexists. split; [apply list_elem_of_here | done].
           ++ intros [= <-]. split; [done|].
              eexists. split; [apply list_elem_of_here | done].
        -- intros [= <-]. split; [done|].
           eexists. split; [apply list_elem_of_here | done].
      * destruct (is_str first); [|discriminate].
        destruct (existsb (py_eq v) (first :: rest)); cbn; [discriminate|].
        intros [= <-]. split; [done|].
        eexists. split; [apply list_elem_of_here | done].
Qed.

Lemma check_params_false_warns (available_params : pyval) (device_id : string)
    (items : dict) :
  result (SafetyChecker.check_params available_params device_id items) = Return false →
  ∃ r, r ∈ logged (SafetyChecker.check_params available_params device_id items)
       ∧ levelno r = WARNING.
Proof.
  induction items as [|[k v] items IH]; [discriminate|].
  cbn [SafetyChecker.check_params]. rewrite result_bind, logged_bind.
  pose proof (check_param_return_warns available_params device_id k v) as Hturn.
  destruct (result (SafetyChecker.check_param available_params device_id k v))
    as [[b|]|e]; [| |discriminate].
  - intros [= ->]. destruct (Hturn false eq_refl) as [_ (r & Hr & Hlevel)].
    exists r. split; [|done]. apply elem_of_app. by left.
  - intros (r & Hr & Hlevel)%IH. exists r. split; [|done]. apply elem_of_app. by right.
Qed.

(** X8. Every rejection is explained: when the validator answers unsafe,
    it has logged at least one record at warning level. *)
Theorem rejection_is_logged (action : ActionCommand.t) (devices : list DeviceState.t) :
  result (SafetyChecker.is_action_safe action devices) = Return false →
  ∃ r, r ∈ logged (SafetyChecker.is_action_safe action devices) ∧ levelno r = WARNING.
Proof.
  unfold SafetyChecker.is_action_safe.
  destruct (SafetyChecker.dev_map devices !! ActionCommand.device_id action) as [dev|].
  2: { intros _. eexists. split; [apply list_elem_of_here | done]. }
  destruct (existsb _ _).
  { intros _. eexists. split; [apply list_elem_of_here | done]. }
  destruct (DeviceState.capabilities dev) as [[|entry caps]|].
  1, 3: intros _; eexists; (split; [apply list_elem_of_here | done]).
  rewrite result_bind, logged_bind.
  destruct (py_in _ _) as [l [[|]|e]]; cbn [result logged fst snd negb]; [| |discriminate].
  - intros (r & Hr & Hlevel)%check_params_false_warns.
    exists r. split; [|done]. apply elem_of_app. by right.
  - intros _. eexists. split; [apply elem_of_app; right; apply list_elem_of_here|].
    reflexivity.
Qed.

Lemma rejection_is_logged_witness :
  ∃ r, r ∈ logged (SafetyChecker.is_action_safe
                     (ActionCommand.mk "smart_ac_1" "set_temperature"
                        [("temperature", PInt 90)]) Demo.enriched_devices)
       ∧ levelno r = WARNING.
Proof.
  apply (rejection_is_logged
           (ActionCommand.mk "smart_ac_1" "set_temperature" [("temperature", PInt 90)])
           Demo.enriched_devices).
  vm_compute. reflexivity.
Defined.

(** ** The rule engine, rule by rule *)

Lemma elem_of_ids_where (keep : DeviceState.t → bool) (devices : list DeviceState.t)
    (i : string) :
  i ∈ DecisionGraph.ids_where keep devices ↔
  ∃ d, d ∈ devices ∧ keep d = true ∧ DeviceState.id d = i.
Proof.
  unfold DecisionGraph.ids_where. rewrite list_elem_of_fmap. split.
  - intros (d & -> & [Hkeep Hin]%list_elem_of_filter). by exists d.
  - intros (d & Hin & Hkeep & <-). exists d. split; [done|]. by apply list_elem_of_filter.
Qed.

(** Case analysis on the sub-records a rule reads, and on the three lists
    of targets. *)
Local Ltac rule_cases ctx :=
  unfold DecisionGraph.candidates_from_context, Policy.of_type;
  destruct (ContextPacket.environment ctx) as [env|]; simpl;
    [destruct (EnvironmentContext.occupancy env) as [[|]|]; simpl|];
    (destruct (ContextPacket.biometric ctx) as [bio|]; simpl;
     [destruct (BiometricContext.activity_status bio) as [[| |]|],
               (BiometricContext.stress_level bio) as [[|]|]; simpl|]);
    (destruct (ContextPacket.location ctx) as [loc|]; simpl;
     [destruct (LocationContext.place loc) as [place|]; simpl;
      [destruct (String.eqb_spec place "home") as [->|Hplace]|]|]);
    repeat match goal with
      | |- context [DecisionGraph.ids_where ?keep ?devices] =>
          let ids := fresh "ids" in
          let Hids := fresh "Hids" in
          destruct (DecisionGraph.ids_where keep devices) as [|? ids] eqn:Hids
      end.



(** X11. Lights are proposed to be turned off only for a vacant room with
    a light that is on: in any other context there is no
    turn_off_room_lights candidate. *)
Theorem lights_stay_unless_vacant (ctx : ContextPacket.t) :
  ¬ (ContextPacket.environment ctx ≫= EnvironmentContext.occupancy = Some vacant
     ∧ ∃ d, d ∈ ContextPacket.devices ctx ∧ DeviceState.on d = true
            ∧ Policy.substring "light" (DeviceState.id d)) →
  Policy.of_type "turn_off_room_lights" (DecisionGraph.candidates_from_context ctx) = [].
Proof.
  intros Hnot.
  assert (ContextPacket.environment ctx ≫= EnvironmentContext.occupancy = Some vacant →
          DecisionGraph.ids_where
            (fun d => DeviceState.on d && str_contains "light" (DeviceState.id d))
            (ContextPacket.devices ctx) = []) as Hnone.
  { intros Hvacant.
    destruct (DecisionGraph.ids_where _ _) as [|i ids] eqn:Hids; [done|].
    destruct Hnot. split; [done|].
    assert (i ∈ DecisionGraph.ids_where
                  (fun d => DeviceState.on d && str_contains "light" (DeviceState.id d))
                  (ContextPacket.devices ctx)) as Hin by (rewrite Hids; left).
    apply elem_of_ids_where in Hin as (d & Hin & [Hon Hlight]%andb_true_iff & _).
    exists d. by rewrite <- str_contains_spec. }
  clear Hnot. revert Hnone. rule_cases ctx; intros Hnone;
    try reflexivity; by specialize (Hnone eq_refl).
Qed.

Lemma lights_stay_unless_vacant_witness :
  Policy.of_type "turn_off_room_lights"
    (DecisionGraph.candidates_from_context Fixtures.after_workout_ctx) = [].
Proof.
  apply (lights_stay_unless_vacant Fixtures.after_workout_ctx).
  intros [Hvacant _]. discriminate Hvacant.
Defined.

(** X12. Whatever the context, every candidate names at least one target,
    every target is the id of a device of the context, and the action types
    come in the order of the rules, each at most once. *)
Theorem candidates_are_well_formed (ctx : ContextPacket.t) :
  (∀ c, c ∈ DecisionGraph.candidates_from_context ctx →
        Candidate.target_devices c ≠ []
        ∧ ∀ i, i ∈ Candidate.target_devices c →
               ∃ d, d ∈ ContextPacket.devices ctx ∧ DeviceState.id d = i)
  ∧ sublist (Candidate.action_type <$> DecisionGraph.candidates_from_context ctx)
      ["turn_off_room_lights"; "prepare_bath"; "relaxation_routine"].
Proof.
  split.
  - intros c. rule_cases ctx; intros Hc;
      repeat (apply elem_of_cons in Hc as [-> | Hc]);
      try (by apply elem_of_nil in Hc);
      (split; [done|]); simpl; intros i Hi;
      match goal with
      | H : DecisionGraph.ids_where _ _ = ?ids |- _ =>
          match type of Hi with
          | _ ∈ ?ids' => constr_eq ids ids'; rewrite <- H in Hi
          end
      end;
      apply elem_of_ids_where in Hi as (d & Hin & _ & Hid); by exists d.
  - rule_cases ctx; simpl;
      repeat first [apply sublist_nil | apply sublist_skip | apply sublist_cons].
Qed.

(** ** The proactivity budget over many calls *)

Lemma allow_each_cons (now : Z) (times : list Z) (budget : ProactivityBudget.t) :
  Calls.allow_each (now :: times) budget
  = match ProactivityBudget.last_suggestion_time budget with
    | Some last =>
        if (ProactivityBudget.cooldown_threshold budget <=? now - last)%Z then
          let run :=
            Calls.allow_each times
              (ProactivityBudget.mk (ProactivityBudget.cooldown_threshold budget)
                 (Some now)) in
          (true :: run.1, run.2)
        else
          let run := Calls.allow_each times budget in (false :: run.1, run.2)
    | None =>
        let run :=
          Calls.allow_each times
            (ProactivityBudget.mk (ProactivityBudget.cooldown_threshold budget)
               (Some now)) in
        (true :: run.1, run.2)
    end.
Proof.
  cbn [Calls.allow_each]. unfold ProactivityBudget.allow.
  destruct (ProactivityBudget.last_suggestion_time budget) as [last|]; simpl.
  - destruct (_ <=? _)%Z; simpl; by destruct (Calls.allow_each _ _).
  - by destruct (Calls.allow_each _ _).
Qed.


(** X14. A cooldown of zero (or less) disables the throttle as long as the
    clock does not run backwards: when each reading is at least the one
    before, and the first at least the recorded one, every call is
    allowed. *)
Theorem zero_cooldown_allows_all (times : list Z) (budget : ProactivityBudget.t) :
  (ProactivityBudget.cooldown_threshold budget ≤ 0)%Z →
  Calls.adjacent Z.le
    (option_list (ProactivityBudget.last_suggestion_time budget) ++ times) →
  (Calls.allow_each times budget).1 = replicate (length times) true.
Proof.
  intros Hzero. revert budget Hzero.
  induction times as [|now times IH]; intros budget Hzero Hclock; [done|].
  rewrite allow_each_cons.
  assert (Calls.adjacent Z.le (now :: times)) as Hrest.
  { destruct (ProactivityBudget.last_suggestion_time budget); [|done].
    by destruct Hclock. }
  destruct (ProactivityBudget.last_suggestion_time budget) as [recorded|] eqn:Hlast.
  - destruct Hclock as [Hfirst _].
    destruct (Z.leb_spec (ProactivityBudget.cooldown_threshold budget)
                (now - recorded)) as [Hle|Hlt]; [|lia].
    simpl. f_equal. by apply IH.
  - simpl. f_equal. by apply IH.
Qed.

Lemma zero_cooldown_allows_all_witness :
  (Calls.allow_each [5; 5; 9]%Z (ProactivityBudget.mk 0 (Some 5%Z))).1
  = [true; true; true].
Proof.
  apply (zero_cooldown_allows_all [5; 5; 9]%Z (ProactivityBudget.mk 0 (Some 5%Z))).
  - simpl. lia.
  - simpl. lia.
Defined.

(** ** Enrichment and the memory query *)

Lemma enrich_devices_result (caps : gmap string dict) (devices : list DeviceState.t) :
  result (ThinkOrchestrator.enrich_devices caps devices)
  = Return ((fun d => DeviceState.mk (DeviceState.id d) (DeviceState.name d)
                        (DeviceState.on d) (DeviceState.params d)
                        (Some (default [] (caps !! DeviceState.id d))))
              <$> devices).
Proof.
  induction devices as [|d devices IH]; [done|].
  cbn [ThinkOrchestrator.enrich_devices].
  destruct (ThinkOrchestrator.enrich_devices caps devices) as [l r].
  simpl in IH. subst r.
  destruct (caps !! DeviceState.id d) as [c|] eqn:Hc; cbn; by rewrite Hc.
Qed.

(** X15. Enrichment never raises and keeps the devices, their order, ids,
    names, states and parameters; the capabilities a device arrives with
    are discarded and replaced by the entry of the capability map for its
    id, or by the empty mapping, with one warning per device that has no
    entry. *)
Theorem enrichment_replaces_capabilities (caps : gmap string dict)
    (devices : list DeviceState.t) :
  ThinkOrchestrator.enrich_devices caps devices
  = ((fun _ => LogRecord WARNING
                 "Device %s from context has no capabilities defined in devices.json")
       <$> filter (fun d => caps !! DeviceState.id d = None) devices,
     Return ((fun d => DeviceState.mk (DeviceState.id d) (DeviceState.name d)
                         (DeviceState.on d) (DeviceState.params d)
                         (Some (default [] (caps !! DeviceState.id d))))
               <$> devices)).
Proof.
  induction devices as [|d devices IH]; [done|].
  cbn [ThinkOrchestrator.enrich_devices]. rewrite IH. clear IH.
  rewrite filter_cons. destruct (caps !! DeviceState.id d) as [c|] eqn:Hc.
  - rewrite decide_False by done. cbn. by rewrite app_nil_r, Hc.
  - rewrite decide_True by done. cbn. by rewrite app_nil_r, Hc.
Qed.

(** X16. A device that the capability map does not list takes no action:
    once the context is enriched, the validator answers unsafe for every
    action on its id. *)
Theorem unlisted_device_is_unsafe (caps : gmap string dict)
    (devices devices' : list DeviceState.t) (action : ActionCommand.t) :
  caps !! ActionCommand.device_id action = None →
  result (ThinkOrchestrator.enrich_devices caps devices) = Return devices' →
  result (SafetyChecker.is_action_safe action devices') = Return false.
Proof.
  intros Hunlisted Henrich.
  rewrite enrich_devices_result in Henrich. injection Henrich as <-.
  unfold SafetyChecker.is_action_safe.
  destruct (SafetyChecker.dev_map _ !! ActionCommand.device_id action)
    as [dev|] eqn:Hdev; [|done].
  apply dev_map_lookup_Some in Hdev as [Hin Hid].
  destruct (existsb _ _); [done|].
  apply list_elem_of_fmap in Hin as (d & -> & _). simpl in Hid |- *.
  by rewrite Hid, Hunlisted.
Qed.

Lemma unlisted_device_is_unsafe_witness :
  result (SafetyChecker.is_action_safe (ActionCommand.mk "smart_plug_9" "on" [])
            [DeviceState.mk "smart_plug_9" None false []
               (Some (default [] (Demo.dummy_device_capabilities !! "smart_plug_9")))])
  = Return false.
Proof.
  apply (unlisted_device_is_unsafe Demo.dummy_device_capabilities
           [DeviceState.mk "smart_plug_9" None false []
              (Some [("functions", PList [PStr "on"])])]
           _ (ActionCommand.mk "smart_plug_9" "on" [])).
  - vm_compute. reflexivity.
  - vm_compute. reflexivity.
Defined.

(** X17. The memory query is the fallback "general user preferences"
    exactly when the context has no activity, no stress level, no
    occupancy and no place (an empty place counts as none); otherwise it
    is the phrases of the facets that are present, in the order activity,
    stress, room, place, separated by a comma and a space. *)
Theorem memory_query_fallback (ctx : ContextPacket.t) :
  (ThinkOrchestrator._get_memory_query ctx = "general user preferences" ↔
   ContextPacket.biometric ctx ≫= BiometricContext.activity_status = None
   ∧ ContextPacket.biometric ctx ≫= BiometricContext.stress_level = None
   ∧ ContextPacket.environment ctx ≫= EnvironmentContext.occupancy = None
   ∧ (ContextPacket.location ctx ≫= LocationContext.place = None
      ∨ ContextPacket.location ctx ≫= LocationContext.place = Some EmptyString))
  ∧ ThinkOrchestrator._get_memory_query ctx
    = match Calls.facets ctx with
      | [] => "general user preferences"
      | parts => String.concat ", " parts
      end.
Proof.
  unfold ThinkOrchestrator._get_memory_query, Calls.facets.
  destruct (ContextPacket.biometric ctx) as [bio|]; simpl;
    [destruct (BiometricContext.activity_status bio) as [[| |]|],
              (BiometricContext.stress_level bio) as [[|]|]; simpl|];
    (destruct (ContextPacket.environment ctx) as [env|]; simpl;
     [destruct (EnvironmentContext.occupancy env) as [[|]|]; simpl|]);
    (destruct (ContextPacket.location ctx) as [loc|]; simpl;
     [destruct (LocationContext.place loc) as [place|]; simpl;
      [destruct (String.eqb_spec place EmptyString) as [->|Hplace];
       [|destruct (decide (place = EmptyString)); [done|]]|]|]);
    (split; [|reflexivity]);
    (split;
     [intros Hquery; vm_compute in Hquery; try discriminate Hquery;
      repeat split; auto
     |intros (Hactivity & Hstress & Hoccupancy & [Hnone | Hempty]);
      simplify_eq; try reflexivity; try done]).
Qed.

(** ** What the pipeline lets through *)

Lemma result_bind_inv {A B} (m : M A) (k : A → M B) (b : B) :
  result (m ≫= k) = Return b → ∃ a, result m = Return a ∧ result (k a) = Return b.
Proof.
  rewrite result_bind. destruct (result m) as [a|e]; [|done]. intros Hk. by exists a.
Qed.

Section DeliveryFacts.
Context {C : Type} `{!ChromaStore.Collection C} `{!ChromaStore.Serializer}.

(** The safety step changes at most [should_suggest] and [reason], and
    leaves a suggestion standing only if it carries no action or the
    validator answered safe. *)
Lemma safety_step_inv (s0 s1 : SuggestionSchema.t) (devices : list DeviceState.t) :
  result (ThinkOrchestrator.safety_step s0 devices) = Return s1 →
  SuggestionSchema.action s1 = SuggestionSchema.action s0
  ∧ SuggestionSchema.suggestion_text s1 = SuggestionSchema.suggestion_text s0
  ∧ SuggestionSchema.confidence s1 = SuggestionSchema.confidence s0
  ∧ (SuggestionSchema.should_suggest s1 = true →
     s1 = s0 ∧ ∀ a, SuggestionSchema.action s0 = Some a →
                    result (SafetyChecker.is_action_safe a devices) = Return true).
Proof.
  unfold ThinkOrchestrator.safety_step.
  destruct (SuggestionSchema.action s0) as [a|] eqn:Haction.
  - rewrite result_bind.
    destruct (result (SafetyChecker.is_action_safe a devices)) as [[|]|e] eqn:Hsafe;
      simpl; [| |done].
    + intros [= <-]. repeat split; try done. by intros ? [= <-].
    + intros [= <-]. simpl. repeat split; done.
  - intros [= <-]. repeat split; done.
Qed.

(** The budget step likewise: a suggestion leaves it standing only if
    [allow()] said yes, and a suggestion that was not to be made passes
    unchanged, with the budget. *)
Lemma budget_step_inv (now : Z) (s1 s : SuggestionSchema.t)
    (budget budget' : ProactivityBudget.t) :
  result (ThinkOrchestrator.budget_step now s1 budget) = Return (s, budget') →
  SuggestionSchema.action s = SuggestionSchema.action s1
  ∧ SuggestionSchema.suggestion_text s = SuggestionSchema.suggestion_text s1
  ∧ SuggestionSchema.confidence s = SuggestionSchema.confidence s1
  ∧ (SuggestionSchema.should_suggest s = true →
     s = s1 ∧ result (ProactivityBudget.allow now budget) = Return (true, budget')).
Proof.
  unfold ThinkOrchestrator.budget_step.
  destruct (SuggestionSchema.should_suggest s1) eqn:Hsuggest.
  - rewrite result_bind.
    destruct (result (ProactivityBudget.allow now budget)) as [[[|] b]|e]; simpl;
      [| |done]; intros [= <- <-]; simpl; repeat split; done.
  - intros [= <- <-]. repeat split; try done. congruence.
Qed.

(** A call of [process_context] that returns went through the three
    stages. *)
Lemma process_context_inv (self : @ThinkOrchestrator.t C) (now : Z)
    (ctx : ContextPacket.t) (s : SuggestionSchema.t) (budget' : ProactivityBudget.t) :
  result (ThinkOrchestrator.process_context self now ctx) = Return (s, budget') →
  ∃ ctx' s0 s1,
    result (ThinkOrchestrator.before_safety self ctx) = Return (ctx', s0)
    ∧ result (ThinkOrchestrator.safety_step s0 (ContextPacket.devices ctx')) = Return s1
    ∧ result (ThinkOrchestrator.budget_step now s1
                (ThinkOrchestrator.proactivity_budget self)) = Return (s, budget').
Proof.
  unfold ThinkOrchestrator.process_context, ThinkOrchestrator.before_budget.
  intros (s1 & ([ctx' s0] & Hbefore & Hsafety)%result_bind_inv & Hbudget)%result_bind_inv.
  by exists ctx', s0, s1.
Qed.

(** The context that reaches the safety check carries the enriched
    devices. *)
Lemma before_safety_devices (self : @ThinkOrchestrator.t C) (ctx ctx' : ContextPacket.t)
    (s0 : SuggestionSchema.t) :
  result (ThinkOrchestrator.before_safety self ctx) = Return (ctx', s0) →
  result (ThinkOrchestrator.enrich_devices (ThinkOrchestrator.device_capabilities self)
            (ContextPacket.devices ctx))
  = Return (ContextPacket.devices ctx').
Proof.
  unfold ThinkOrchestrator.before_safety,
    ThinkOrchestrator._enrich_context_with_capabilities.
  intros (_ & _ & Hrest)%result_bind_inv.
  apply result_bind_inv in Hrest as (ctx1 & Henrich & Hrest).
  apply result_bind_inv in Henrich as (devices' & Hdevices & [= <-]).
  apply result_bind_inv in Hrest as (memory_texts & _ & Hrest).
  apply result_bind_inv in Hrest as (pass1_output & _ & Hrest).
  apply result_bind_inv in Hrest as (suggestion & _ & [= <- _]).
  exact Hdevices.
Qed.

(** X18. No unsafe action is delivered: when [process_context] returns a
    suggestion that is to be made and carries an action, the validator
    answered safe for that action on the enriched devices of the context. *)
Theorem delivered_action_is_safe (self : @ThinkOrchestrator.t C) (now : Z)
    (ctx : ContextPacket.t) (s : SuggestionSchema.t) (budget' : ProactivityBudget.t)
    (a : ActionCommand.t) :
  result (ThinkOrchestrator.process_context self now ctx) = Return (s, budget') →
  SuggestionSchema.should_suggest s = true →
  SuggestionSchema.action s = Some a →
  ∃ devices',
    result (ThinkOrchestrator.enrich_devices (ThinkOrchestrator.device_capabilities self)
              (ContextPacket.devices ctx)) = Return devices'
    ∧ result (SafetyChecker.is_action_safe a devices') = Return true.
Proof.
  intros (ctx' & s0 & s1 & Hbefore & Hsafety & Hbudget)%process_context_inv
         Hsuggest Haction.
  apply budget_step_inv in Hbudget as (_ & _ & _ & Hstands).
  destruct (Hstands Hsuggest) as [-> _].
  apply safety_step_inv in Hsafety as (_ & _ & _ & Hsafe).
  destruct (Hsafe Hsuggest) as [-> Hanswer].
  exists (ContextPacket.devices ctx'). split.
  - by eapply before_safety_devices.
  - by apply Hanswer.
Qed.

(** X19. No suggestion is delivered within the cooldown: when
    [process_context] returns a suggestion that is to be made, the budget
    it leaves records the time of the call and keeps its cooldown, and the
    time of the call is at least the cooldown after the reading that was
    recorded before, if there was one. *)
Theorem delivered_after_cooldown (self : @ThinkOrchestrator.t C) (now : Z)
    (ctx : ContextPacket.t) (s : SuggestionSchema.t) (budget' : ProactivityBudget.t) :
  result (ThinkOrchestrator.process_context self now ctx) = Return (s, budget') →
  SuggestionSchema.should_suggest s = true →
  let budget := ThinkOrchestrator.proactivity_budget self in
  budget' = ProactivityBudget.mk (ProactivityBudget.cooldown_threshold budget) (Some now)
  ∧ ∀ recorded, ProactivityBudget.last_suggestion_time budget = Some recorded →
                (ProactivityBudget.cooldown_threshold budget ≤ now - recorded)%Z.
Proof.
  intros (ctx' & s0 & s1 & Hbefore & Hsafety & Hbudget)%process_context_inv Hsuggest.
  apply budget_step_inv in Hbudget as (_ & _ & _ & Hstands).
  destruct (Hstands Hsuggest) as [_ Hallow]. cbv zeta.
  unfold ProactivityBudget.allow in Hallow.
  destruct (ProactivityBudget.last_suggestion_time
              (ThinkOrchestrator.proactivity_budget self)) as [recorded|].
  - destruct (Z.leb_spec
                (ProactivityBudget.cooldown_threshold
                   (ThinkOrchestrator.proactivity_budget self))
                (now - recorded)) as [Hle|Hlt]; simpl in Hallow; [|done].
    injection Hallow as <-. split; [done|]. by intros ? [= <-].
  - simpl in Hallow. injection Hallow as <-. by split.
Qed.

(** X20. The pipeline only ever withdraws: the action, the text and the
    confidence that [process_context] returns are those of the suggestion
    pass 2 produced, and a suggestion that is to be made is that suggestion
    unchanged. *)
Theorem pipeline_only_withdraws (self : @ThinkOrchestrator.t C) (now : Z)
    (ctx ctx' : ContextPacket.t) (s0 s : SuggestionSchema.t)
    (budget' : ProactivityBudget.t) :
  result (ThinkOrchestrator.before_safety self ctx) = Return (ctx', s0) →
  result (ThinkOrchestrator.process_context self now ctx) = Return (s, budget') →
  SuggestionSchema.action s = SuggestionSchema.action s0
  ∧ SuggestionSchema.suggestion_text s = SuggestionSchema.suggestion_text s0
  ∧ SuggestionSchema.confidence s = SuggestionSchema.confidence s0
  ∧ (SuggestionSchema.should_suggest s = true → s = s0).
Proof.
  intros Hbefore (ctx1 & s0' & s1 & Hbefore' & Hsafety & Hbudget)%process_context_inv.
  rewrite Hbefore in Hbefore'. injection Hbefore' as <- <-.
  apply budget_step_inv in Hbudget as (Ha & Ht & Hc & Hstands).
  apply safety_step_inv in Hsafety as (Ha' & Ht' & Hc' & Hsafe).
  repeat split; [congruence | congruence | congruence |].
  intros Hsuggest. destruct (Hstands Hsuggest) as [-> _].
  by destruct (Hsafe Hsuggest) as [-> _].
Qed.

(** X21. A failure of pass 1 is not fatal and leaves no trace in the
    answer: a client whose pass-1 chain raises gives the same result as the
    same client with a pass-1 chain that answers "LLM pass1 error". *)
Theorem pass1_failure_is_absorbed (self : @ThinkOrchestrator.t C) (now : Z)
    (ctx : ContextPacket.t) :
  (∀ ctx' candidates memory_texts,
     ∃ e, LangchainLLMClient.pass1_chain (ThinkOrchestrator.llm_client self)
            ctx' candidates memory_texts = Raise e) →
  let fallback :=
    ThinkOrchestrator.mk
      (LangchainLLMClient.mk (fun _ _ _ => Return "LLM pass1 error")
         (LangchainLLMClient.pass2_chain (ThinkOrchestrator.llm_client self)))
      (ThinkOrchestrator.memory self) (ThinkOrchestrator.device_capabilities self)
      (ThinkOrchestrator.proactivity_budget self) in
  result (ThinkOrchestrator.process_context self now ctx)
  = result (ThinkOrchestrator.process_context fallback now ctx).
Proof.
  intros Hraises. cbv zeta.
  unfold ThinkOrchestrator.process_context, ThinkOrchestrator.before_budget.
  rewrite !(result_bind (_ ≫= _)). rewrite !(result_bind (ThinkOrchestrator.before_safety _ _)).
  assert (result (ThinkOrchestrator.before_safety self ctx)
          = result (ThinkOrchestrator.before_safety
                      (ThinkOrchestrator.mk
                         (LangchainLLMClient.mk (fun _ _ _ => Return "LLM pass1 error")
                            (LangchainLLMClient.pass2_chain
                               (ThinkOrchestrator.llm_client self)))
                         (ThinkOrchestrator.memory self)
                         (ThinkOrchestrator.device_capabilities self)
                         (ThinkOrchestrator.proactivity_budget self)) ctx)) as ->; [|done].
  unfold ThinkOrchestrator.before_safety. cbn [ThinkOrchestrator.memory
    ThinkOrchestrator.llm_client ThinkOrchestrator.device_capabilities].
  rewrite !(result_bind (log _ _)). cbn [result log snd].
  rewrite !(result_bind (ThinkOrchestrator._enrich_context_with_capabilities _ _)).
  unfold ThinkOrchestrator._enrich_context_with_capabilities.
  cbn [ThinkOrchestrator.device_capabilities].
  destruct (result (_ ≫= _)) as [ctx1|e]; [|done].
  rewrite !(result_bind (match ThinkOrchestrator.memory self with _ => _ end)).
  destruct (result (match ThinkOrchestrator.memory self with _ => _ end))
    as [memory_texts|e]; [|done].
  rewrite !(result_bind (try_except _ _)).
  unfold LangchainLLMClient.pass1_reasoning, ChromaStore.call.
  cbn [LangchainLLMClient.pass1_chain].
  destruct (Hraises ctx1 (DecisionGraph.candidates_from_context ctx1) memory_texts)
    as [e ->].
  cbn [try_except result snd mbind M_bind log mret M_ret].
  reflexivity.
Qed.

(** X22. Pass 2 never raises into the orchestrator, and the orchestrator's
    handler for a failed call never runs: the step always returns a
    suggestion, and never logs the failure message of that handler. *)
Theorem pass2_step_never_fails_over (self : @ThinkOrchestrator.t C)
    (ctx : ContextPacket.t) (pass1_output : string) :
  (∃ s, result (ThinkOrchestrator.pass2_step self ctx pass1_output) = Return s)
  ∧ LogRecord ERROR "Pass2 parse/LLM failure: %s"
    ∉ logged (ThinkOrchestrator.pass2_step self ctx pass1_output).
Proof.
  unfold ThinkOrchestrator.pass2_step, LangchainLLMClient.pass2_structured,
    ChromaStore.call.
  destruct (LangchainLLMClient.pass2_chain _ _ _) as [parsed|e]; cbn.
  - unfold SuggestionSchema.init. cbn.
    destruct (SuggestionSchema.confidence_valid _); cbn.
    + split; [by eexists | apply not_elem_of_nil].
    + split; [by eexists|]. by intros [=]%list_elem_of_singleton.
  - split; [by eexists|]. by intros [=]%list_elem_of_singleton.
Qed.

End DeliveryFacts.

Lemma delivered_action_is_safe_witness :
  ∃ devices',
    result (ThinkOrchestrator.enrich_devices Demo.dummy_device_capabilities
              (ContextPacket.devices Demo.ctx)) = Return devices'
    ∧ result (SafetyChecker.is_action_safe
                (ActionCommand.mk "smart_light_1" "set_brightness" [("brightness", PInt 80)])
                devices') = Return true.
Proof.
  apply (delivered_action_is_safe
           (Demo.orchestrator (Demo.answering Demo.dim_light)
              (ProactivityBudget.mk Demo.ten_minutes None))
           0 Demo.ctx Demo.dim_light (ProactivityBudget.mk Demo.ten_minutes (Some 0%Z))
           (ActionCommand.mk "smart_light_1" "set_brightness" [("brightness", PInt 80)])).
  - vm_compute. reflexivity.
  - reflexivity.
  - reflexivity.
Defined.

Lemma delivered_after_cooldown_witness :
  ProactivityBudget.mk Demo.ten_minutes (Some 600000000%Z)
  = ProactivityBudget.mk Demo.ten_minutes (Some 600000000%Z)
  ∧ ∀ recorded, Some 0%Z = Some recorded → (Demo.ten_minutes ≤ 600000000 - recorded)%Z.
Proof.
  apply (delivered_after_cooldown
           (Demo.orchestrator (Demo.answering Demo.dim_light)
              (ProactivityBudget.mk Demo.ten_minutes (Some 0%Z)))
           600000000 Demo.ctx Demo.dim_light
           (ProactivityBudget.mk Demo.ten_minutes (Some 600000000%Z))).
  - vm_compute. reflexivity.
  - reflexivity.
Defined.

Lemma pipeline_only_withdraws_witness :
  let withdrawn :=
    SuggestionSchema.mk false (Some "Heat the room?") (Some "Action failed safety check.")
      (SuggestionSchema.action Demo.overheat) (Some 0.8%Q) in
  SuggestionSchema.action withdrawn = SuggestionSchema.action Demo.overheat
  ∧ SuggestionSchema.suggestion_text withdrawn = SuggestionSchema.suggestion_text Demo.overheat
  ∧ SuggestionSchema.confidence withdrawn = SuggestionSchema.confidence Demo.overheat
  ∧ (SuggestionSchema.should_suggest withdrawn = true → withdrawn = Demo.overheat).
Proof.
  eapply (pipeline_only_withdraws
            (Demo.orchestrator (Demo.answering Demo.overheat)
               (ProactivityBudget.mk Demo.ten_minutes None))
            0 Demo.ctx _ Demo.overheat _ (ProactivityBudget.mk Demo.ten_minutes None)).
  - vm_compute. reflexivity.
  - vm_compute. reflexivity.
Defined.

Lemma pass1_failure_is_absorbed_witness :
  let failing_pass1 :=
    LangchainLLMClient.mk (fun _ _ _ => Raise (ExternalError "timeout"))
      (fun _ _ => Return Demo.dim_light) in
  let budget := ProactivityBudget.mk Demo.ten_minutes None in
  result (ThinkOrchestrator.process_context
            (Demo.orchestrator failing_pass1 budget) 0 Demo.ctx)
  = result (ThinkOrchestrator.process_context
              (Demo.orchestrator
                 (LangchainLLMClient.mk (fun _ _ _ => Return "LLM pass1 error")
                    (fun _ _ => Return Demo.dim_light)) budget) 0 Demo.ctx).
Proof.
  apply (pass1_failure_is_absorbed
           (Demo.orchestrator
              (LangchainLLMClient.mk (fun _ _ _ => Raise (ExternalError "timeout"))
                 (fun _ _ => Return Demo.dim_light))
              (ProactivityBudget.mk Demo.ten_minutes None)) 0 Demo.ctx).
  intros ctx' candidates memory_texts. by eexists.
Defined.

(** ** The memory collaborator, beyond writes that fail *)

Lemma dict_get_set_eq (k : string) (v : pyval) (d : dict) :
  dict_get k (ChromaStore.dict_set k v d) = Some v.
Proof.
  induction d as [|[k' v'] d IH]; simpl.
  - by rewrite String.eqb_refl.
  - destruct (String.eqb_spec k k') as [->|Hne]; simpl.
    + by rewrite String.eqb_refl.
    + destruct (String.eqb_spec k k'); [done | exact IH].
Qed.

Lemma dict_get_set_ne (k k' : string) (v : pyval) (d : dict) :
  k ≠ k' → dict_get k' (ChromaStore.dict_set k v d) = dict_get k' d.
Proof.
  intros Hne. induction d as [|[k0 v0] d IH]; simpl.
  - destruct (String.eqb_spec k' k); [congruence | done].
  - destruct (String.eqb_spec k k0) as [->|Hne0]; simpl.
    + destruct (String.eqb_spec k' k0); [congruence | done].
    + destruct (String.eqb_spec k' k0); [done | exact IH].
Qed.

Lemma dict_get_None (k : string) (d : dict) : k ∉ d.*1 → dict_get k d = None.
Proof.
  induction d as [|[k' v] d IH]; [done|]. rewrite fmap_cons, not_elem_of_cons.
  intros [Hne Hnotin]. simpl. destruct (String.eqb_spec k k'); [done | by apply IH].
Qed.

Lemma call_Return_bind {A B} (a : A) (k : A → M B) :
  ChromaStore.call (Return a) ≫= k = k a.
Proof. unfold ChromaStore.call. cbn. by destruct (k a). Qed.

Lemma bind_Return_eq {A B} (m : M A) (k : A → M B) (a : A) :
  result m = Return a → m ≫= k = (logged m ++ logged (k a), result (k a)).
Proof. destruct m as [l [a'|e]]; [|done]. intros [= ->]. cbn. by destruct (k a). Qed.

Lemma bind_Raise_eq {A B} (m : M A) (k : A → M B) (e : exn) :
  result m = Raise e → m ≫= k = (logged m, Raise e).
Proof. destruct m as [l [a|e']]; [done|]. by intros [= ->]. Qed.

Lemma try_except_Return_eq {A} (m : M A) (h : exn → M A) (a : A) :
  result m = Return a → try_except m h = m.
Proof. destruct m as [l [a'|e]]; [|done]. by intros [= ->]. Qed.

Lemma try_except_Raise_eq {A} (m : M A) (h : exn → M A) (e : exn) :
  result m = Raise e → try_except m h = (logged m ++ logged (h e), result (h e)).
Proof. destruct m as [l [a|e']]; [done|]. intros [= ->]. cbn. by destruct (h e). Qed.

Section StoreExtras.
Context {C : Type} `{!ChromaStore.Collection C} `{!ChromaStore.Serializer}.

Lemma sanitize_value_scalar (v : pyval) :
  Calls.is_scalar (ChromaStore.sanitize_value v) = true.
Proof.
  destruct v; try done; simpl; by destruct (ChromaStore.json_dumps _).
Qed.


(** The loop that fills [safe_meta], from any starting mapping. *)
Lemma sanitize_loop_get (metadata acc : dict) (k : string) :
  NoDup metadata.*1 →
  dict_get k (foldl (fun safe_meta kv =>
                       ChromaStore.dict_set kv.1 (ChromaStore.sanitize_value kv.2) safe_meta)
                acc metadata)
  = match dict_get k metadata with
    | Some v => Some (ChromaStore.sanitize_value v)
    | None => dict_get k acc
    end.
Proof.
  revert acc. induction metadata as [|[k' v] metadata IH]; intros acc Hnodup; [done|].
  rewrite fmap_cons in Hnodup. apply NoDup_cons in Hnodup as [Hfresh Hnodup].
  simpl. rewrite IH by done.
  destruct (String.eqb_spec k k') as [->|Hne].
  - by rewrite dict_get_None, dict_get_set_eq.
  - destruct (dict_get k metadata); [done|]. by rewrite dict_get_set_ne.
Qed.


(** X24. What is written for a text that is not a duplicate: the document
    goes to the collection under the fresh id, with the vector that
    [get_ollama_embedding] returned, the sanitized metadata and a
    "timestamp" entry that holds the time of the call, whatever the caller
    had put under that key; the call returns the id when the collection
    accepts the document. *)
Theorem add_document_stamps_metadata (self : C) (fresh : ChromaStore.Fresh)
    (text : string) (kv : string * pyval) (items : dict) :
  result (ChromaStore._is_duplicate self text ChromaStore.THRESHOLD) = Return false →
  NoDup (kv :: items).*1 →
  ∃ safe_meta embedding,
    let added :=
      ChromaStore.add self text safe_meta embedding (ChromaStore.uuid4 fresh) in
    let r := ChromaStore.add_document self fresh text (Some (kv :: items)) in
    result (ChromaStore.get_ollama_embedding text) = Return embedding
    ∧ r.2 = added.2
    ∧ result r.1 = match added.1 with
                   | Return _ => Return (ChromaStore.uuid4 fresh)
                   | Raise e => Raise e
                   end
    ∧ dict_get "timestamp" safe_meta = Some (PStr (ChromaStore.now_isoformat fresh))
    ∧ (∀ k, k ≠ "timestamp" →
            dict_get k safe_meta
            = ChromaStore.sanitize_value <$> dict_get k (kv :: items))
    ∧ (∀ k w, dict_get k safe_meta = Some w → Calls.is_scalar w = true).
Proof.
  intros Hdup Hnodup.
  destruct (get_ollama_embedding_returns text) as [embedding Hemb].
  exists (ChromaStore.dict_set "timestamp" (PStr (ChromaStore.now_isoformat fresh))
            (ChromaStore.sanitize (kv :: items))), embedding.
  cbv zeta.
  assert (∀ k, dict_get k (ChromaStore.sanitize (kv :: items))
               = ChromaStore.sanitize_value <$> dict_get k (kv :: items)) as Hget.
  { intros k. unfold ChromaStore.sanitize. rewrite sanitize_loop_get by done.
    by destruct (dict_get k (kv :: items)). }
  destruct (add_document_not_duplicate self fresh text kv items embedding Hdup Hemb)
    as [Hstore Hend]. cbv zeta in Hstore, Hend.
  split; [exact Hemb|]. split; [exact Hstore|]. split; [|split; [|split]].
  - by destruct (ChromaStore.add self text _ embedding (ChromaStore.uuid4 fresh)).1
      as [[]|e]; destruct Hend as [-> _].
  - apply dict_get_set_eq.
  - intros k Hk. rewrite dict_get_set_ne by done. apply Hget.
  - intros k w. destruct (decide (k = "timestamp")) as [->|Hk].
    + rewrite dict_get_set_eq. by intros [= <-].
    + rewrite dict_get_set_ne by done. rewrite Hget.
      destruct (dict_get k (kv :: items)) as [v|]; simpl; [|done].
      intros [= <-]. apply sanitize_value_scalar.
Qed.

(** What the embedding call logs: nothing when Ollama answers a mapping
    with the vector under "embedding", and the two records of the fallback
    when the request fails. *)
Lemma get_ollama_embedding_answered (text : string) (data : dict) (vector : pyval) :
  ChromaStore.ollama_post text = Return (PDict data) →
  dict_get "embedding" data = Some vector →
  ChromaStore.get_ollama_embedding text = ([], Return vector).
Proof.
  intros Hpost Hvector.
  unfold ChromaStore.get_ollama_embedding, ChromaStore.call, py_in, py_getitem.
  rewrite Hpost. cbn. rewrite bool_decide_eq_true_2 by (by eexists).
  cbn. by rewrite Hvector.
Qed.

Lemma get_ollama_embedding_fallback (text : string) (e : exn) :
  ChromaStore.ollama_post text = Raise e →
  ChromaStore.get_ollama_embedding text
  = ([LogRecord ERROR "Ollama embedding error: {e}";
      LogRecord WARNING "Using naive fallback embedding!"],
     Return (PList (replicate 768 (PFloat (ChromaStore.naive_component text))))).
Proof.
  intros Hpost. unfold ChromaStore.get_ollama_embedding, ChromaStore.call.
  by rewrite Hpost.
Qed.

(** X25. The duplicate check fails open. Once [count] has answered, it
    never raises; on an empty collection it answers no without a search
    and without a record; and when the search raises it answers no, so the
    document is written, and its log is what the embedding call logged
    followed by the error of the check. *)
Theorem duplicate_check_fails_open (self : C) (text : string) (threshold : Q) (n : nat) :
  ChromaStore.count self = Return n →
  (∃ b, result (ChromaStore._is_duplicate self text threshold) = Return b)
  ∧ (n = 0%nat → ChromaStore._is_duplicate self text threshold = ([], Return false))
  ∧ (∀ e embedding, n ≠ 0%nat →
          result (ChromaStore.get_ollama_embedding text) = Return embedding →
          ChromaStore.query self embedding 1 = Raise e →
          ChromaStore._is_duplicate self text threshold
          = (logged (ChromaStore.get_ollama_embedding text)
             ++ [LogRecord ERROR "Duplicate check error: {e}"], Return false)).
Proof.
  intros Hcount. split; [by eapply is_duplicate_returns|].
  unfold ChromaStore._is_duplicate. rewrite Hcount, call_Return_bind.
  destruct (Nat.eqb_spec n 0) as [->|Hn].
  - split; [done|]. by intros e embedding [].
  - split; [done|]. intros e embedding _ Hemb Hquery.
    rewrite (bind_Return_eq _ _ embedding Hemb), Hquery.
    rewrite (try_except_Raise_eq _ _ e) by done.
    cbn. by rewrite !app_nil_r.
Qed.


End StoreExtras.


Lemma add_document_stamps_metadata_witness :
  ∃ safe_meta embedding,
    let store := Demo.mkFake [] None in
    let added :=
      ChromaStore.add store "fact" safe_meta embedding (ChromaStore.uuid4 Demo.fresh) in
    let r := ChromaStore.add_document store Demo.fresh "fact"
               (Some [("timestamp", PStr "yesterday"); ("tags", PList [PStr "a"])]) in
    result (ChromaStore.get_ollama_embedding (C:=Demo.FakeCollection) "fact")
    = Return embedding
    ∧ r.2 = added.2
    ∧ result r.1 = match added.1 with
                   | Return _ => Return (ChromaStore.uuid4 Demo.fresh)
                   | Raise e => Raise e
                   end
    ∧ dict_get "timestamp" safe_meta = Some (PStr (ChromaStore.now_isoformat Demo.fresh))
    ∧ (∀ k, k ≠ "timestamp" →
            dict_get k safe_meta
            = ChromaStore.sanitize_value
                <$> dict_get k [("timestamp", PStr "yesterday"); ("tags", PList [PStr "a"])])
    ∧ (∀ k w, dict_get k safe_meta = Some w → Calls.is_scalar w = true).
Proof.
  apply (add_document_stamps_metadata (Demo.mkFake [] None) Demo.fresh "fact"
           ("timestamp", PStr "yesterday") [("tags", PList [PStr "a"])]).
  - reflexivity.
  - apply (bool_decide_unpack _). vm_compute. exact I.
Defined.

Lemma duplicate_check_fails_open_witness :
  ChromaStore._is_duplicate (Fixtures.mkUnreachable 2) "fact" ChromaStore.THRESHOLD
  = ([LogRecord ERROR "Ollama embedding error: {e}";
      LogRecord WARNING "Using naive fallback embedding!";
      LogRecord ERROR "Duplicate check error: {e}"], Return false).
Proof.
  assert (ChromaStore.count (Fixtures.mkUnreachable 2) = Return 2%nat) as Hcount
    by reflexivity.
  destruct (duplicate_check_fails_open (Fixtures.mkUnreachable 2) "fact"
              ChromaStore.THRESHOLD 2 Hcount) as (_ & _ & Hopen).
  apply (Hopen (ExternalError "chroma query failed")
           (PList (replicate 768 (PFloat (Fin 0.5))))).
  - discriminate.
  - reflexivity.
  - reflexivity.
Defined.


(** ** The service *)

Lemma try_except_Return_inv {A} (m : M A) (h : exn → M A) (a : A) :
  result (try_except m h) = Return a →
  result m = Return a ∨ ∃ e, result m = Raise e ∧ result (h e) = Return a.
Proof.
  destruct m as [l [a'|e]]; simpl; [by left|].
  intros Hh. right. exists e. split; [done|]. by destruct (h e).
Qed.

Lemma capability_entry_shape (dev : pyval) (i : string) (caps : dict) :
  result (ThinkService.capability_entry dev) = Return (Some (i, caps)) → Calls.both_keys caps.
Proof.
  unfold ThinkService.capability_entry.
  destruct dev as [| | | | | |d]; try discriminate.
  destruct (dict_get "id" d) as [[| | | |s| |]|]; try discriminate.
  intros [= <- <-]. by eexists _, _.
Qed.

Lemma collect_capabilities_shape (devs : list pyval) (m0 m : gmap string dict) :
  (∀ i caps, m0 !! i = Some caps → Calls.both_keys caps) →
  result (ThinkService.collect_capabilities devs m0) = Return m →
  ∀ i caps, m !! i = Some caps → Calls.both_keys caps.
Proof.
  revert m0. induction devs as [|dev devs IH]; intros m0 Hm0; simpl.
  - by intros [= <-].
  - intros (entry & Hentry & Hrest)%result_bind_inv. eapply IH; [|exact Hrest].
    destruct entry as [[i0 caps0]|]; [|done].
    intros i caps. destruct (decide (i0 = i)) as [->|Hne].
    + rewrite lookup_insert_eq. intros [= <-]. by eapply capability_entry_shape.
    + rewrite lookup_insert_ne by done. apply Hm0.
Qed.

(** X27. Every entry of a loaded capability map has exactly the two keys
    "functions" and "parameters", whatever the file said about the device:
    a listed device never has empty capabilities. *)
Theorem loaded_capabilities_have_both_keys (devices_data : pyval)
    (m : gmap string dict) (i : string) (caps : dict) :
  result (ThinkService.load_capabilities devices_data) = Return m →
  m !! i = Some caps →
  ∃ functions parameters,
    caps = [("functions", functions); ("parameters", parameters)].
Proof.
  unfold ThinkService.load_capabilities.
  destruct devices_data as [| | | | | |data]; try discriminate.
  intros (devs & _ & Hcollect)%result_bind_inv Hcaps.
  eapply (collect_capabilities_shape devs ∅ m); [|done|done].
  intros ? ?. by rewrite lookup_empty.
Qed.

Lemma loaded_capabilities_have_both_keys_witness :
  ∃ functions parameters,
    [("functions", PList []); ("parameters", PDict [])]
    = [("functions", functions); ("parameters", parameters)].
Proof.
  eapply (loaded_capabilities_have_both_keys Fixtures.devices_json _ "smart_plug_1").
  - vm_compute. reflexivity.
  - vm_compute. reflexivity.
Defined.

Section ServiceFacts.
Context {C : Type} `{!ChromaStore.Collection C} `{!ChromaStore.Serializer}.

(** X28. Start-up never raises: it leaves an orchestrator or marks the
    module as failed. It leaves an orchestrator only when the device file
    was read and converted, the store was built, the model is configured
    and both seed documents were written without an exception; that
    orchestrator has the capability map of the file, a cooldown of ten
    minutes with no suggestion recorded, and the store with the seeds. *)
Theorem startup_outcome (devices_json : option (outcome pyval)) (new_store : outcome C)
    (GLOBAL_LLM : option LangchainLLMClient.t) (fresh1 fresh2 : ChromaStore.Fresh) :
  let started :=
    ThinkService.startup_event devices_json new_store GLOBAL_LLM fresh1 fresh2 in
  (∃ o, result started = Return o)
  ∧ ∀ self, result started = Return (Some self) →
      ∃ data store,
        let first :=
          ChromaStore.add_document store fresh1 ThinkService.seed_bath
            (Some ThinkService.seed_metadata) in
        let second :=
          ChromaStore.add_document first.2 fresh2 ThinkService.seed_lighting
            (Some ThinkService.seed_metadata) in
        devices_json = Some (Return data)
        ∧ new_store = Return store
        ∧ GLOBAL_LLM = Some (ThinkOrchestrator.llm_client self)
        ∧ result (ThinkService.load_capabilities data)
          = Return (ThinkOrchestrator.device_capabilities self)
        ∧ ThinkOrchestrator.proactivity_budget self
          = ProactivityBudget.mk (ProactivityBudget.timedelta_minutes 10) None
        ∧ (∃ id1, result first.1 = Return id1)
        ∧ (∃ id2, result second.1 = Return id2)
        ∧ ThinkOrchestrator.memory self = Some second.2.
Proof.
  cbv zeta. unfold ThinkService.startup_event. split.
  { apply try_except_returns. intros e. by eexists. }
  intros self [Hbody | (e & _ & Hhandler)]%try_except_Return_inv; [|done].
  apply result_bind_inv in Hbody as (self' & Hbody & [= ->]).
  unfold ThinkService.startup_body in Hbody.
  apply result_bind_inv in Hbody as (data & Hdata & Hbody).
  apply result_bind_inv in Hbody as (caps & Hcaps & Hbody).
  apply result_bind_inv in Hbody as ([] & _ & Hbody).
  apply result_bind_inv in Hbody as (store & Hstore & Hbody).
  apply result_bind_inv in Hbody as (llm & Hllm & Hbody).
  apply result_bind_inv in Hbody as (budget & Hbudget & Hbody).
  apply result_bind_inv in Hbody as ([] & _ & Hbody).
  cbv zeta in Hbody.
  apply result_bind_inv in Hbody as (id1 & Hfirst & Hbody).
  apply result_bind_inv in Hbody as (id2 & Hsecond & Hbody).
  apply result_bind_inv in Hbody as ([] & _ & [= <-]).
  destruct devices_json as [[data'|e]|]; [|done|done].
  injection Hdata as ->.
  destruct new_store as [store'|e]; [|done]. injection Hstore as ->.
  destruct GLOBAL_LLM as [llm'|]; [|done]. injection Hllm as ->.
  injection Hbudget as <-.
  exists data, store. cbv zeta. simpl. repeat split; try done; by eexists.
Qed.

(** X29. Only safe suggestions are handed over for forwarding: a
    suggestion the endpoint schedules is one that is to be made, the
    response is the 202 body with its confidence, and the action it
    carries, if any, was answered safe by the validator on the enriched
    devices of the packet. *)
Theorem forwarded_suggestions_are_safe (self : @ThinkOrchestrator.t C) (now : Z)
    (packet : ContextPacket.t) (handled : ThinkService.Handled)
    (s : SuggestionSchema.t) :
  result (ThinkService.process_context_endpoint (Some self) now packet) = Return handled →
  s ∈ ThinkService.background_tasks handled →
  SuggestionSchema.should_suggest s = true
  ∧ ThinkService.response handled = ThinkService.Accepted (SuggestionSchema.confidence s)
  ∧ ∀ a, SuggestionSchema.action s = Some a →
         ∃ devices',
           result (ThinkOrchestrator.enrich_devices
                     (ThinkOrchestrator.device_capabilities self)
                     (ContextPacket.devices packet)) = Return devices'
           ∧ result (SafetyChecker.is_action_safe a devices') = Return true.
Proof.
  unfold ThinkService.process_context_endpoint.
  intros [Hok | (e & _ & Hhandler)]%try_except_Return_inv.
  2: { injection Hhandler as <-. intros Hin. by apply elem_of_nil in Hin. }
  apply result_bind_inv in Hok as ([s' budget'] & Hprocess & [= <-]). simpl.
  destruct (SuggestionSchema.should_suggest s') eqn:Hsuggest;
    [|by intros Hin; apply elem_of_nil in Hin].
  intros ->%list_elem_of_singleton. split; [done|]. split; [done|].
  intros a Haction.
  apply process_context_inv in Hprocess
    as (ctx' & s0 & s1 & Hbefore & Hsafety & Hbudget).
  apply budget_step_inv in Hbudget as (_ & _ & _ & Hstands).
  destruct (Hstands Hsuggest) as [-> _].
  apply safety_step_inv in Hsafety as (_ & _ & _ & Hsafe).
  destruct (Hsafe Hsuggest) as [-> Hanswer].
  exists (ContextPacket.devices ctx').
  split; [by eapply before_safety_devices | by apply Hanswer].
Qed.

Lemma forward_suggestion_returns (post : SuggestionSchema.t → outcome unit)
    (s : SuggestionSchema.t) :
  result (ThinkService.forward_suggestion post s)
  = Return (if SuggestionSchema.should_suggest s then [s] else []).
Proof.
  unfold ThinkService.forward_suggestion, ChromaStore.call.
  destruct (SuggestionSchema.should_suggest s); [|done]. cbn.
  by destruct (post s).
Qed.

(** X30. Serving a request never raises, whatever the ACTION module
    answers: the caller gets a response, and a request to the ACTION module
    is attempted for exactly the suggestions that were scheduled. Without
    an orchestrator the response is 503, and when [process_context] raises
    it is 500 with the orchestrator left as it was; in both cases nothing
    is forwarded. *)
Theorem serve_never_raises (post : SuggestionSchema.t → outcome unit)
    (orchestrator : option (@ThinkOrchestrator.t C)) (now : Z)
    (packet : ContextPacket.t) :
  ∃ handled,
    result (ThinkService.serve post orchestrator now packet)
    = Return (handled, ThinkService.background_tasks handled)
    ∧ (orchestrator = None →
       handled = ThinkService.mkHandled
                   (ThinkService.HTTPException 503
                      "THINK module is not initialized. Check logs.") [] None)
    ∧ (∀ self e, orchestrator = Some self →
                 result (ThinkOrchestrator.process_context self now packet) = Raise e →
                 handled = ThinkService.mkHandled
                             (ThinkService.HTTPException 500 "Error processing context")
                             [] (Some self)).
Proof.
  assert (∃ handled,
            result (ThinkService.process_context_endpoint orchestrator now packet)
            = Return handled
            ∧ (length (ThinkService.background_tasks handled) ≤ 1)%nat
            ∧ (∀ s, s ∈ ThinkService.background_tasks handled →
                    SuggestionSchema.should_suggest s = true)
            ∧ (orchestrator = None →
               handled = ThinkService.mkHandled
                           (ThinkService.HTTPException 503
                              "THINK module is not initialized. Check logs.") [] None)
            ∧ (∀ self e, orchestrator = Some self →
                 result (ThinkOrchestrator.process_context self now packet) = Raise e →
                 handled = ThinkService.mkHandled
                             (ThinkService.HTTPException 500 "Error processing context")
                             [] (Some self)))
    as (handled & Hhandled & Hlen & Htasks & Hnone & Hraise).
  { unfold ThinkService.process_context_endpoint.
    destruct orchestrator as [self|].
    - destruct (ThinkOrchestrator.process_context self now packet)
        as [l [[s budget']|e]] eqn:Hprocess.
      + eexists. split; [reflexivity|].
        split; [simpl; destruct (SuggestionSchema.should_suggest s); simpl; lia|].
        split.
        { simpl. destruct (SuggestionSchema.should_suggest s) eqn:Hsuggest.
          - by intros ? ->%list_elem_of_singleton.
          - by intros ? ?%elem_of_nil. }
        split; [done|].
        intros ? ? [= <-]. rewrite Hprocess. by intros [=].
      + eexists. split; [reflexivity|].
        split; [simpl; lia|]. split; [by intros ? ?%elem_of_nil|].
        split; [done|].
        intros ? ? [= <-]. rewrite Hprocess. by intros [= <-].
    - eexists. split; [reflexivity|].
      split; [simpl; lia|]. split; [by intros ? ?%elem_of_nil|].
      split; [done|]. by intros ? ? [=]. }
  exists handled. split; [|by split].
  unfold ThinkService.serve.
  eapply result_bind_Return; [exact Hhandled|].
  destruct (ThinkService.background_tasks handled) as [|s [|s' tasks]]; simpl in *.
  - reflexivity.
  - eapply result_bind_Return.
    + eapply result_bind_Return; [apply forward_suggestion_returns|].
      rewrite (Htasks s (list_elem_of_here _ _)). reflexivity.
    + reflexivity.
  - lia.
Qed.

End ServiceFacts.

Lemma forwarded_suggestions_are_safe_witness :
  SuggestionSchema.should_suggest Demo.dim_light = true
  ∧ ThinkService.Accepted (Some 0.9%Q)
    = ThinkService.Accepted (SuggestionSchema.confidence Demo.dim_light)
  ∧ ∀ a, SuggestionSchema.action Demo.dim_light = Some a →
         ∃ devices',
           result (ThinkOrchestrator.enrich_devices Demo.dummy_device_capabilities
                     (ContextPacket.devices Demo.ctx)) = Return devices'
           ∧ result (SafetyChecker.is_action_safe a devices') = Return true.
Proof.
  apply (forwarded_suggestions_are_safe
           (Demo.orchestrator (Demo.answering Demo.dim_light)
              (ProactivityBudget.mk Demo.ten_minutes None))
           0 Demo.ctx
           (ThinkService.mkHandled (ThinkService.Accepted (Some 0.9%Q)) [Demo.dim_light]
              (Some (Demo.orchestrator (Demo.answering Demo.dim_light)
                       (ProactivityBudget.mk Demo.ten_minutes (Some 0%Z)))))
           Demo.dim_light).
  - vm_compute. reflexivity.
  - apply list_elem_of_here.
Defined.
